(** * create-se2: the project bootstrap script, as a shallow embedding

    The program is [packages/create-se2/dist/cli.js]: one sequential script
    that validates a project name, copies the bundled template, patches the
    copied [package.json], installs dependencies and optionally initialises a
    git repository.

    Strings are byte strings (ASCII as it is, other text in UTF-8).  The
    script runs against a filesystem and spawns child processes: the model
    threads the filesystem through a small state-and-exception monad that
    also records, in order, every effect the script performs. *)

From Stdlib Require Import String Ascii List Bool Arith Lia.
From stdpp Require Import base option gmap strings list fin_maps.

Import ListNotations.
Local Set Warnings "-register-all".
Local Open Scope list_scope.
Local Open Scope string_scope.

(** ** JavaScript string operations used by the script *)

Module JsString.

(** [s.startsWith(p)] *)
Definition startsWith (s p : string) : bool := String.prefix p s.

(** [s.includes(frag)]: [frag] occurs in [s] as a substring. *)
Fixpoint includes (s frag : string) : bool :=
  startsWith s frag
  || match s with
     | EmptyString => false
     | String _ s' => includes s' frag
     end.

(** [s] without its first [n] bytes. *)
Fixpoint drop (n : nat) (s : string) : string :=
  match n, s with
  | O, _ => s
  | S _, EmptyString => EmptyString
  | S n', String _ s' => drop n' s'
  end.

(** The one-byte WhiteSpace and LineTerminator characters of ECMAScript:
    TAB, LF, VT, FF, CR and SPACE. *)
Definition is_ws1 (c : ascii) : bool :=
  match c with
  | "009" | "010" | "011" | "012" | "013" | " " => true
  | _ => false
  end%char.

(** The other WhiteSpace and LineTerminator characters, by their UTF-8
    bytes: U+00A0 (C2 A0); U+1680 (E1 9A 80); U+2000..U+200A, U+2028,
    U+2029, U+202F (E2 80 xx); U+205F (E2 81 9F); U+3000 (E3 80 80);
    U+FEFF (EF BB BF). *)
Definition is_ws2 (c1 c2 : ascii) : bool :=
  match c1, c2 with
  | "194", "160" => true
  | _, _ => false
  end%char.

Definition is_ws3 (c1 c2 c3 : ascii) : bool :=
  match c1, c2, c3 with
  | "225", "154", "128" => true
  | "226", "128", ("128" | "129" | "130" | "131" | "132" | "133" | "134"
                   | "135" | "136" | "137" | "138" | "168" | "169" | "175") => true
  | "226", "129", "159" => true
  | "227", "128", "128" => true
  | "239", "187", "191" => true
  | _, _, _ => false
  end%char.

(** [s.trimStart()] *)
Fixpoint trimStart (s : string) : string :=
  match s with
  | EmptyString => EmptyString
  | String c1 s1 =>
      if is_ws1 c1 then trimStart s1
      else
        match s1 with
        | String c2 s2 =>
            if is_ws2 c1 c2 then trimStart s2
            else
              match s2 with
              | String c3 s3 => if is_ws3 c1 c2 c3 then trimStart s3 else s
              | EmptyString => s
              end
        | EmptyString => s
        end
  end.

(** [s] consists of white space only. *)
Definition blank (s : string) : bool :=
  match trimStart s with EmptyString => true | _ => false end.

(** [s.trimEnd()]: keep the bytes up to the last one that is followed by
    something other than white space. *)
Fixpoint trimEnd (s : string) : string :=
  match s with
  | EmptyString => EmptyString
  | String c s' => if blank s then EmptyString else String c (trimEnd s')
  end.

(** [s.trim()] *)
Definition trim (s : string) : string := trimEnd (trimStart s).

(** [a.join(sep)] on an array of strings. *)
Fixpoint join (sep : string) (a : list string) : string :=
  match a with
  | [] => ""
  | [x] => x
  | x :: rest => x ++ sep ++ join sep rest
  end.

(** [a.includes(x)] on an array of strings: SameValueZero, which on
    strings is equality. *)
Definition array_includes (a : list string) (x : string) : bool :=
  existsb (String.eqb x) a.

(** [a.find(x => x === v)] *)
Definition array_find_eq (a : list string) (v : string) : option string :=
  List.find (fun x => String.eqb x v) a.

End JsString.

(** ** Node's [path] module (POSIX flavour) *)

Module Path.

(** The segments of a path between its ["/"] separators. *)
Fixpoint split (p : string) : list string :=
  match p with
  | EmptyString => [""]
  | String c p' =>
      if Ascii.eqb c "/" then "" :: split p'
      else
        match split p' with
        | seg :: rest => String c seg :: rest
        | [] => [String c ""]
        end
  end.

Definition isAbsolute (p : string) : bool := JsString.startsWith p "/".

Definition endsWithSep (p : string) : bool :=
  match rev (split p) with
  | "" :: _ :: _ => true
  | _ => false
  end.

(** [normalizeString]: drop empty and ["."] segments and resolve [".."]
    against the segment before it; [acc] is the result so far, most recent
    segment first. *)
Fixpoint normalize_segments (allowAboveRoot : bool) (acc segs : list string)
  : list string :=
  match segs with
  | [] => rev acc
  | seg :: rest =>
      if String.eqb seg "" || String.eqb seg "." then
        normalize_segments allowAboveRoot acc rest
      else if String.eqb seg ".." then
        match acc with
        | top :: acc' =>
            if String.eqb top ".." then
              normalize_segments allowAboveRoot (seg :: acc) rest
            else normalize_segments allowAboveRoot acc' rest
        | [] =>
            if allowAboveRoot then
              normalize_segments allowAboveRoot [seg] rest
            else normalize_segments allowAboveRoot [] rest
        end
      else normalize_segments allowAboveRoot (seg :: acc) rest
  end.

(** [path.normalize(p)] *)
Definition normalize (p : string) : string :=
  match p with
  | EmptyString => "."
  | _ =>
      let abs := isAbsolute p in
      let trailing := endsWithSep p in
      let body :=
        JsString.join "/" (normalize_segments (negb abs) [] (split p)) in
      match body with
      | EmptyString => if abs then "/" else if trailing then "./" else "."
      | _ =>
          let body := if trailing then body ++ "/" else body in
          if abs then "/" ++ body else body
      end
  end.

Definition nonempty (s : string) : bool :=
  match s with EmptyString => false | _ => true end.

(** [path.join(...parts)] *)
Definition join (parts : list string) : string :=
  match List.filter nonempty parts with
  | [] => "."
  | kept => normalize (JsString.join "/" kept)
  end.

(** [path.resolve(p)] in a process whose working directory is [cwd]:
    absolute, normalized, without a trailing separator. *)
Definition resolve_segments (cwd p : string) : list string :=
  normalize_segments false []
    (if isAbsolute p then split p else split cwd ++ split p).

Fixpoint strip_common (a b : list string) : list string * list string :=
  match a, b with
  | x :: a', y :: b' =>
      if String.eqb x y then strip_common a' b' else (a, b)
  | _, _ => (a, b)
  end.

(** [path.relative(from, to)] *)
Definition relative (cwd from to : string) : string :=
  let '(up, down) :=
    strip_common (resolve_segments cwd from) (resolve_segments cwd to) in
  JsString.join "/" (List.map (fun _ => "..") up ++ down).

(** [path.basename(p)] and [path.dirname(p)] *)
Definition basename (p : string) : string :=
  match rev (List.filter nonempty (split p)) with
  | base :: _ => base
  | [] => ""
  end.

Definition dirname (p : string) : string :=
  match rev (List.filter nonempty (split p)) with
  | _ :: (_ :: _) as dirs =>
      (if isAbsolute p then "/" else "") ++ JsString.join "/" (rev dirs)
  | _ => if isAbsolute p then "/" else "."
  end.

End Path.

(** ** JSON values, [JSON.stringify] *)

(** A parsed JSON document.  A number is carried as its JavaScript rendering:
    the script never computes on one.  An object keeps its members in
    property order, as [JSON.stringify] prints them. *)
Inductive json : Type :=
| JNull
| JBool (b : bool)
| JNumber (rendering : string)
| JString (s : string)
| JArray (items : list json)
| JObject (members : list (string * json)).

Module Json.

Definition hex_digit (n : nat) : ascii :=
  match n with
  | 0 => "0" | 1 => "1" | 2 => "2" | 3 => "3" | 4 => "4" | 5 => "5"
  | 6 => "6" | 7 => "7" | 8 => "8" | 9 => "9" | 10 => "a" | 11 => "b"
  | 12 => "c" | 13 => "d" | 14 => "e" | _ => "f"
  end%char.

(** [QuoteJSONString] on one byte. *)
Definition quote_char (c : ascii) : string :=
  match c with
  | "034"%char => String "\" (String "034" "")
  | "\"%char => "\\"
  | "008"%char => "\b"
  | "012"%char => "\f"
  | "010"%char => "\n"
  | "013"%char => "\r"
  | "009"%char => "\t"
  | _ =>
      let n := nat_of_ascii c in
      if Nat.ltb n 32 then
        "\u00" ++ String (hex_digit (n / 16)) (String (hex_digit (n mod 16)) "")
      else String c ""
  end.

Fixpoint quote_body (s : string) : string :=
  match s with
  | EmptyString => ""
  | String c s' => quote_char c ++ quote_body s'
  end.

Definition quote (s : string) : string :=
  String "034" (quote_body s ++ String "034" "").

Definition newline : string := String "010" "".

Fixpoint spaces (n : nat) : string :=
  match n with O => "" | S n' => String " " (spaces n') end.

(** [SerializeJSONProperty] with the indentation unit [gap], at the
    current indentation [indent]. *)
Fixpoint serialize (gap indent : string) (v : json) {struct v} : string :=
  let stepback := indent in
  let indent := indent ++ gap in
  let wrap (opening closing : string) (partial : list string) : string :=
    match partial with
    | [] => opening ++ closing
    | _ =>
        match gap with
        | EmptyString => opening ++ JsString.join "," partial ++ closing
        | _ =>
            opening ++ newline ++ indent
            ++ JsString.join ("," ++ newline ++ indent) partial
            ++ newline ++ stepback ++ closing
        end
    end in
  let colon := match gap with EmptyString => ":" | _ => ": " end in
  match v with
  | JNull => "null"
  | JBool true => "true"
  | JBool false => "false"
  | JNumber rendering => rendering
  | JString s => quote s
  | JArray items => wrap "[" "]" (List.map (serialize gap indent) items)
  | JObject members =>
      wrap "{" "}"
        (List.map (fun m => quote (fst m) ++ colon ++ serialize gap indent (snd m))
           members)
  end.

(** [JSON.stringify(v, null, space)] for a number [space]: the indentation
    unit is [min space 10] spaces. *)
Definition stringify (v : json) (space : nat) : string :=
  serialize (spaces (Nat.min space 10)) "" v.

(** [o[k]] on the members of an object. *)
Fixpoint get (k : string) (members : list (string * json)) : option json :=
  match members with
  | [] => None
  | (k', x) :: rest => if String.eqb k' k then Some x else get k rest
  end.

(** [o[k] = x] on the members of an object: an existing property keeps its
    place, a new one goes last. *)
Fixpoint set (k : string) (x : json) (members : list (string * json))
  : list (string * json) :=
  match members with
  | [] => [(k, x)]
  | (k', x') :: rest =>
      if String.eqb k' k then (k', x) :: rest else (k', x') :: set k x rest
  end.

End Json.

(** ** The world the script runs in *)

(** A filesystem maps an absolute path to what is there. *)
Inductive node : Type :=
| File (content : string)
| Dir.

Abbreviation filesystem := (gmap string node).

(** What the script does to the outside, in the order it does it. *)
Inductive event : Type :=
| ConsoleLog (line : string)
| Prompt (message initial : string)
| ExecSync (command : string)
| Execa (file : string) (args : list string) (cwd : string)
| Cpy (source destination : string)
| CopyFile (from to : string)
| WriteFile (path : string).

(** The exceptions of the script: its own [FriendlyError], and every other
    [Error] (I/O, [SyntaxError], [TypeError], a failed child process). *)
Inductive exn : Type :=
| FriendlyError (message : string)
| Error (message : string).

(** How a computation ends: with a value, with an exception in flight, or
    with the process gone through [process.exit(code)]. *)
Inductive result (A : Type) : Type :=
| Ok (a : A)
| Throw (e : exn)
| Exited (code : nat).
Arguments Ok {A} a.
Arguments Throw {A} e.
Arguments Exited {A} code.

(** A computation takes the filesystem and gives its result, the filesystem
    it leaves, and the events it performed. *)
Definition M (A : Type) : Type :=
  filesystem -> result A * filesystem * list event.

#[global] Instance M_ret : MRet M :=
  fun A a fs => (Ok a, fs, []).

#[global] Instance M_bind : MBind M :=
  fun A B k m fs =>
    match m fs with
    | (Ok a, fs1, ev1) =>
        match k a fs1 with
        | (r, fs2, ev2) => (r, fs2, (ev1 ++ ev2)%list)
        end
    | (Throw e, fs1, ev1) => (Throw e, fs1, ev1)
    | (Exited code, fs1, ev1) => (Exited code, fs1, ev1)
    end.

Definition throw {A} (e : exn) : M A :=
  fun fs => (Throw e, fs, []).

(** [try { body } catch (err) { handler(err) }] *)
Definition try_catch {A} (body : M A) (handler : exn -> M A) : M A :=
  fun fs =>
    match body fs with
    | (Throw e, fs1, ev1) =>
        match handler e fs1 with
        | (r, fs2, ev2) => (r, fs2, (ev1 ++ ev2)%list)
        end
    | other => other
    end.

Definition process_exit {A} (code : nat) : M A :=
  fun fs => (Exited code, fs, []).

Definition emit (e : event) : M unit :=
  fun fs => (Ok tt, fs, [e]).

(** [console.log(line)]; the [chalk] colouring of the script's messages is
    left out of the text. *)
Definition log (line : string) : M unit := emit (ConsoleLog line).

(** What the script calls and does not define. *)
Record externals : Type := {
  (** [validateNpmPackageName(value).validForNewPackages] *)
  validForNewPackages : string -> bool;
  (** [JSON.parse]: [None] is a [SyntaxError] *)
  JSON_parse : string -> option json;
  (** the files a glob pattern matches, as absolute paths *)
  glob : string -> filesystem -> list string;
  (** [isJunk(name)] of the [junk] package: [cpy] drops the matches whose
      base name it holds for junk, unless [ignoreJunk] is turned off *)
  isJunk : string -> bool;
  (** a child process run to its end by [execa(file, args, {cwd})]: whether
      it exited with code 0, and the filesystem it left *)
  child_process : string -> list string -> string -> filesystem -> bool * filesystem;
  (** the same for a shell command run by [execSync] *)
  shell : string -> filesystem -> bool * filesystem
}.

(** *** [fs-extra] *)

Module Fs.

(** [fs.existsSync(path)] *)
Definition existsSync (path : string) : M bool :=
  fun fs => (Ok (bool_decide (is_Some (fs !! path))), fs, []).

Definition is_dir (fs : filesystem) (path : string) : bool :=
  String.eqb path "/"
  || match fs !! path with Some Dir => true | _ => false end.

(** [fs.readJson(path)] *)
Definition readJson (ext : externals) (path : string) : M json :=
  fun fs =>
    match fs !! path with
    | Some (File text) =>
        match JSON_parse ext text with
        | Some v => (Ok v, fs, [])
        | None => (Throw (Error "SyntaxError"), fs, [])
        end
    | Some Dir => (Throw (Error "EISDIR"), fs, [])
    | None => (Throw (Error "ENOENT"), fs, [])
    end.

(** [fs.writeFile(path, data)]: replaces the file, or creates it in a
    directory that is there. *)
Definition writeFile (path data : string) : M unit :=
  fun fs =>
    match fs !! path with
    | Some Dir => (Throw (Error "EISDIR"), fs, [])
    | Some (File _) => (Ok tt, <[path := File data]> fs, [WriteFile path])
    | None =>
        if is_dir fs (Path.dirname path) then
          (Ok tt, <[path := File data]> fs, [WriteFile path])
        else (Throw (Error "ENOENT"), fs, [])
    end.

(** The directories from the root down to [path], [path] included. *)
Fixpoint prefixes (before : string) (segs : list string) : list string :=
  match segs with
  | [] => []
  | seg :: rest =>
      let here := before ++ "/" ++ seg in
      here :: prefixes here rest
  end.

Definition ancestors (path : string) : list string :=
  prefixes "" (List.filter Path.nonempty (Path.split path)).

Definition is_file (fs : filesystem) (path : string) : bool :=
  match fs !! path with Some (File _) => true | _ => false end.

(** [mkdir -p path] *)
Definition make_dir (fs : filesystem) (path : string) : filesystem :=
  fold_left
    (fun fs d => match fs !! d with None => <[d := Dir]> fs | Some _ => fs end)
    (ancestors path) fs.

(** Copy one file, creating the directories above the destination. *)
Definition copyFile (from to : string) : M unit :=
  fun fs =>
    match fs !! from with
    | Some (File content) =>
        let parent := Path.dirname to in
        if existsb (is_file fs) (ancestors parent) then
          (Throw (Error "ENOTDIR"), fs, [])
        else if is_dir fs to then (Throw (Error "EISDIR"), fs, [])
        else (Ok tt, <[to := File content]> (make_dir fs parent), [CopyFile from to])
    | Some Dir => (Throw (Error "EISDIR"), fs, [])
    | None => (Throw (Error "ENOENT"), fs, [])
    end.

End Fs.

(** *** [cpy] *)

(** The directory a glob pattern starts from: its segments before the first
    one with a [*] in it. *)
Fixpoint literal_segments (segs : list string) : list string :=
  match segs with
  | [] => []
  | seg :: rest =>
      if JsString.includes seg "*" then [] else seg :: literal_segments rest
  end.

Definition glob_parent (pattern : string) : string :=
  JsString.join "/" (literal_segments (Path.split pattern)).

(** Where [cpy] puts a matched file: under [destination], at the place the
    file has under the pattern's directory, its base name through [rename]. *)
Definition destination_of (cwd source destination : string)
    (rename : string -> string) (path : string) : string :=
  let rel := Path.relative cwd (glob_parent source) path in
  Path.join [destination; Path.dirname rel; rename (Path.basename rel)].

Fixpoint copy_each (jobs : list (string * string)) : M unit :=
  match jobs with
  | [] => mret tt
  | job :: rest => Fs.copyFile (fst job) (snd job);; copy_each rest
  end.

(** The matches [cpy] works on: those of the pattern, without the files
    whose base name is junk ([ignoreJunk] is on by default and the script
    leaves it on). *)
Definition matches (ext : externals) (source : string) (fs : filesystem) : list string :=
  List.filter (fun path => negb (isJunk ext (Path.basename path))) (glob ext source fs).

(** The copies [cpy] has to make: one for each of these matches that the
    filter keeps. *)
Definition copy_jobs (ext : externals) (cwd source destination : string)
    (filter : string -> bool) (rename : string -> string) (fs : filesystem)
  : list (string * string) :=
  List.map (fun path => (path, destination_of cwd source destination rename path))
    (List.filter filter (matches ext source fs)).

(** [cpy(source, destination, {filter, rename})]; the filter is handed the
    matched file, of which the script reads the [path]. *)
Definition cpy (ext : externals) (cwd source destination : string)
    (filter : string -> bool) (rename : string -> string) : M unit :=
  emit (Cpy source destination);;
  ((fun fs => copy_each (copy_jobs ext cwd source destination filter rename fs) fs)
   : M unit).

(** ** The script *)

Inductive packageManager : Type := npm | yarn | pnpm.

Definition manager_name (p : packageManager) : string :=
  match p with npm => "npm" | yarn => "yarn" | pnpm => "pnpm" end.

(** [program.opts()] *)
Record options : Type := {
  useNpm : bool;
  useYarn : bool;
  usePnpm : bool;
  skipGit : bool
}.

(** What one run of the script is given.  The command-line parser (lines
    48-61) is outside the model: a run starts from what it hands over. *)
Record invocation : Type := {
  (** the [project-directory] argument as the command-line parser hands it
      to the action: [None] is [undefined] *)
  project_directory : option string;
  opts : options;
  (** [process.env.npm_config_user_agent] *)
  npm_config_user_agent : option string;
  (** [process.cwd()] *)
  cwd : string;
  (** the directory of the running [cli.js] *)
  __dirname : string;
  (** what the user submits to the name prompt, in order; the user aborts
      the prompt after the last one *)
  typed : list string
}.

Definition reservedPackageNames : list string :=
  [ "@se-2/create-se2";
    "@ethersproject/networks";
    "@ethersproject/web";
    "@heroicons/react";
    "@rainbow-me/rainbowkit";
    "@uniswap/sdk";
    "daisyui";
    "ethers";
    "next";
    "nextjs-progressbar";
    "react";
    "react-blockies";
    "react-copy-to-clipboard";
    "react-dom";
    "react-fast-marquee";
    "react-hot-toast";
    "use-debounce";
    "usehooks-ts";
    "wagmi";
    "zustand" ].

Definition invalidProjectNameErrorMessage : string :=
  "Project name must be a valid npm package name.".

Definition line_feed : string := String "010" "".
Definition double_quote : string := String "034" "".

(** The messages of the three [FriendlyError]s (lines 116-123, 126-135 and
    139-144). *)
Definition invalid_name_message : string :=
  JsString.join line_feed
    [ "👀 The project name you provided is not a valid package name.";
      "🙏 " ++ invalidProjectNameErrorMessage ].

Definition reserved_name_message (projectPath : string) : string :=
  JsString.join line_feed
    [ "👀 The project name you provided is a reserved package name.";
      "🙏 Please use a project name other than " ++ double_quote
      ++ match JsString.array_find_eq reservedPackageNames projectPath with
         | Some x => x
         | None => "undefined"
         end
      ++ double_quote ++ "." ].

Definition target_exists_message (projectPath : string) : string :=
  JsString.join line_feed
    [ "👀 The target directory " ++ double_quote ++ projectPath ++ double_quote
      ++ " already exists.";
      "🙏 Please remove this directory or choose a different project name." ].

Definition ignoreList : list string := ["node_modules"; ".next"; "CHANGELOG.md"].

(** The [rename] handed to [cpy]: [name.replace(/^_dot_/, ".")] (line
    161). *)
Definition rename (name : string) : string :=
  if JsString.startsWith name "_dot_" then "." ++ JsString.drop 5 name else name.

(** The answer of a prompt's [validate]: [true], or the message to show. *)
Inductive validation : Type :=
| Accepted
| Rejected (message : string).

(** [prompts({type: "text", validate, ...})]: a submission that [validate]
    rejects leaves the prompt open; the first accepted one is the [value];
    there is no [value] when the user aborts. *)
Fixpoint prompt_value (validate : string -> validation) (typed : list string)
  : option string :=
  match typed with
  | [] => None
  | value :: more =>
      match validate value with
      | Accepted => Some value
      | Rejected _ => prompt_value validate more
      end
  end.

Definition prompts (message initial : string) (validate : string -> validation)
    (typed : list string) : M (option string) :=
  emit (Prompt message initial);; mret (prompt_value validate typed).

Section Script.

Context (ext : externals).

(** *** [detectPackageManager] (lines 17-39) *)

(** [execSync(command, {stdio: "ignore"})]: throws when the command fails. *)
Definition execSync (command : string) : M unit :=
  fun fs =>
    match shell ext command fs with
    | (true, fs') => (Ok tt, fs', [ExecSync command])
    | (false, fs') => (Throw (Error command), fs', [ExecSync command])
    end.

(** The [if (userAgent)] block: the manager it returns, or [None] when
    control leaves the block without a [return]. *)
Definition from_user_agent (userAgent : option string) : option packageManager :=
  match userAgent with
  | Some (String _ _ as userAgent) =>
      if JsString.startsWith userAgent "pnpm" then Some pnpm
      else if JsString.startsWith userAgent "yarn" then Some yarn
      else if JsString.startsWith userAgent "npm" then Some npm
      else None
  | _ => None
  end.

Definition detectPackageManager (userAgent : option string) : M packageManager :=
  try_catch
    (match from_user_agent userAgent with
     | Some manager => mret manager
     | None =>
         try_catch
           (execSync "pnpm --version";; mret pnpm)
           (fun _ => execSync "yarn --version";; mret yarn)
     end)
    (fun _ => mret npm).

(** *** [run] (lines 45-217) *)

Definition isValidProjectName (value : string) : bool :=
  validForNewPackages ext value.

(** The prompt's [validate] (lines 98-106). *)
Definition validate (value2 : string) : validation :=
  if negb (isValidProjectName value2) then
    Rejected invalidProjectNameErrorMessage
  else if JsString.array_includes reservedPackageNames value2 then
    Rejected (double_quote ++ value2 ++ double_quote ++ " is a reserved package name.")
  else Accepted.

(** The two checks of the name (lines 115-136). *)
Definition check_name (projectPath : string) : M unit :=
  (if negb (isValidProjectName projectPath) then
     throw (FriendlyError invalid_name_message)
   else mret tt);;
  (if JsString.array_includes reservedPackageNames projectPath then
     throw (FriendlyError (reserved_name_message projectPath))
   else mret tt).

(** The check of the target directory (lines 138-145). *)
Definition check_target (projectPath targetPath : string) : M unit :=
  found ← Fs.existsSync targetPath;
  if found : bool then throw (FriendlyError (target_exists_message projectPath))
  else mret tt.

(** Lines 146-149. *)
Definition selectedTemplatePath (inv : invocation) : string :=
  let templatesPath := Path.join [__dirname inv; ".."; "templates"] in
  let templateName := "nextjs" in
  Path.join [templatesPath; templateName].

(** The [filter] handed to [cpy], on the matched file's [path] (lines
    157-160). *)
Definition copy_filter (inv : invocation) (src_path : string) : bool :=
  forallb
    (fun ignore =>
       let relativePath := Path.relative (cwd inv) (selectedTemplatePath inv) src_path in
       negb (JsString.includes relativePath ignore))
    ignoreList.

(** The call of [cpy] (lines 156-162). *)
Definition copy_template (inv : invocation) (targetPath : string) : M unit :=
  cpy ext (cwd inv) (Path.join [selectedTemplatePath inv; "**"; "*"]) targetPath
    (copy_filter inv) rename.

(** [obj[key] = value] in strict mode, on a parsed JSON value: [null] and
    the primitives throw a [TypeError]; an array takes the property beside
    its items, where [JSON.stringify] does not print it. *)
Definition set_property (obj : json) (key : string) (value : json) : M json :=
  match obj with
  | JObject members => mret (JObject (Json.set key value members))
  | JArray items => mret (JArray items)
  | JNull | JBool _ | JNumber _ | JString _ => throw (Error "TypeError")
  end.

(** Lines 163-169. *)
Definition patch_manifest (projectPath targetPath : string) : M unit :=
  pkgJson ← Fs.readJson ext (Path.join [targetPath; "package.json"]);
  pkgJson ← set_property pkgJson "name" (JString projectPath);
  pkgJson ← set_property pkgJson "version" (JString "0.1.0");
  Fs.writeFile (Path.join [targetPath; "package.json"]) (Json.stringify pkgJson 2).

(** Line 170. *)
Definition choose_packageManager (inv : invocation) : M packageManager :=
  if usePnpm (opts inv) then mret pnpm
  else if useYarn (opts inv) then mret yarn
  else if useNpm (opts inv) then mret npm
  else detectPackageManager (npm_config_user_agent inv).

(** [await execa(file, args, {cwd})]: throws unless the child exits with
    code 0. *)
Definition execa (file : string) (args : list string) (dir : string) : M unit :=
  fun fs =>
    match child_process ext file args dir fs with
    | (true, fs') => (Ok tt, fs', [Execa file args dir])
    | (false, fs') => (Throw (Error file), fs', [Execa file args dir])
    end.

Definition git_init : list string := ["init"].
Definition git_add : list string := ["add"; "."].
Definition git_commit : list string :=
  ["commit"; "--no-verify"; "--message"; "Initial commit from create-se2"].

(** Lines 182-196. *)
Definition initialize_git (inv : invocation) (targetPath : string) : M unit :=
  if negb (skipGit (opts inv)) then
    log "📚 Initializing git repository";;
    execa "git" git_init targetPath;;
    execa "git" git_add targetPath;;
    execa "git" git_commit targetPath
  else mret tt.

(** The script once the target is known to be free: copy, patch, install,
    git (lines 146-208). *)
Definition scaffold (inv : invocation) (projectPath targetPath : string) : M unit :=
  log ("🚀 Creating a new Scaffold-ETH 2 app in " ++ targetPath);;
  copy_template inv targetPath;;
  patch_manifest projectPath targetPath;;
  packageManager ← choose_packageManager inv;
  log ("📦 Installing dependencies with " ++ manager_name packageManager
       ++ ". This could take a while.");;
  execa (manager_name packageManager) ["install"] targetPath;;
  initialize_git inv targetPath;;
  log "🌈 Done! Thanks for using Scaffold-ETH 2 🙏";;
  log "";;
  log ("👉 To get started, run cd " ++ projectPath ++ " and then "
       ++ manager_name packageManager
       ++ (match packageManager with npm => " run" | _ => "" end) ++ " start");;
  log "".

(** The script from the name on (lines 114-208). *)
Definition create (inv : invocation) (projectPath : string) : M unit :=
  log "";;
  check_name projectPath;;
  let targetPath := Path.join [cwd inv; projectPath] in
  check_target projectPath targetPath;;
  scaffold inv projectPath targetPath.

(** The body of the [try] block (lines 47-208). *)
Definition main (inv : invocation) : M unit :=
  let projectPath := project_directory inv in
  log "";;
  log "🌈 Welcome to Scaffold-ETH 2!";;
  let projectPath := JsString.trim <$> projectPath in
  match projectPath with
  | Some (String _ _ as projectPath) => create inv projectPath
  | _ =>
      log "";;
      value ← prompts "What is the name of your project?" "my-se2-app"
                validate (typed inv);
      match value with
      | None => log ""
      | Some value => create inv value
      end
  end.

(** The [try] and its [catch] (lines 46 and 209-216). *)
Definition run (inv : invocation) : M unit :=
  try_catch (main inv)
    (fun err =>
       match err with
       | FriendlyError message => log message;; process_exit 1
       | _ => throw err
       end).

End Script.

(** How the process ends: [run()] resolved (exit code 0), [process.exit]
    was called, or the exception left [run] uncaught. *)
Inductive termination : Type :=
| ExitCode (code : nat)
| Uncaught (e : exn).

Definition execute (ext : externals) (inv : invocation) (fs : filesystem)
  : termination * filesystem * list event :=
  match run ext inv fs with
  | (Ok _, fs', events) => (ExitCode 0, fs', events)
  | (Exited code, fs', events) => (ExitCode code, fs', events)
  | (Throw e, fs', events) => (Uncaught e, fs', events)
  end.

(** ** Notions for the statements *)

(** Every event of [m] satisfies [P], whatever the filesystem. *)
Definition emits {A} (P : event -> Prop) (m : M A) : Prop :=
  forall fs, Forall P (snd (m fs)).

(** [m] ends with a value or with an [Error]: it throws no [FriendlyError]
    and does not call [process.exit]. *)
Definition plain_result {A} (r : result A) : Prop :=
  match r with
  | Ok _ | Throw (Error _) => True
  | Throw (FriendlyError _) | Exited _ => False
  end.

Definition plain {A} (m : M A) : Prop :=
  forall fs, plain_result (fst (fst (m fs))).

(** The name a run goes on with: the trimmed argument when that is not
    empty, the value of the prompt otherwise. *)
Definition project_name (ext : externals) (inv : invocation) : option string :=
  match JsString.trim <$> project_directory inv with
  | Some (String _ _ as projectPath) => Some projectPath
  | _ => prompt_value (validate ext) (typed inv)
  end.

(** Whether the run asks for the name. *)
Definition prompted (inv : invocation) : bool :=
  match JsString.trim <$> project_directory inv with
  | Some (String _ _) => false
  | _ => true
  end.

(** What a run prints and asks before it has a name. *)
Definition opening (inv : invocation) : list event :=
  ([ConsoleLog ""; ConsoleLog "🌈 Welcome to Scaffold-ETH 2!"]
   ++ if prompted inv then
        [ConsoleLog ""; Prompt "What is the name of your project?" "my-se2-app"]
      else [])%list.

(** Console output and the prompt: the events that touch neither the
    filesystem nor a child process. *)
Definition interaction (e : event) : Prop :=
  match e with
  | ConsoleLog _ | Prompt _ _ => True
  | _ => False
  end.

Definition is_git (e : event) : bool :=
  match e with
  | Execa file _ _ => String.eqb file "git"
  | _ => false
  end.

(** The git commands among the events of a run, in order. *)
Definition git_commands (events : list event) : list event :=
  List.filter is_git events.

Definition no_git (e : event) : Prop := is_git e = false.

(** The pattern the script hands to [cpy]. *)
Definition template_pattern (inv : invocation) : string :=
  Path.join [selectedTemplatePath inv; "**"; "*"].

(** The copies the script's call of [cpy] has to make. *)
Definition template_jobs (ext : externals) (inv : invocation) (targetPath : string)
    (fs : filesystem) : list (string * string) :=
  copy_jobs ext (cwd inv) (template_pattern inv) targetPath (copy_filter inv) rename fs.

Definition copy_event (job : string * string) : event :=
  CopyFile (fst job) (snd job).

(** The events of what follows the copy: no copy and no prompt. *)
Definition after_copy (e : event) : Prop :=
  match e with
  | Cpy _ _ | CopyFile _ _ | Prompt _ _ => False
  | _ => True
  end.

(** What the copy events of a run started on [fs] have to say: the pattern
    is the bundled template's, and every copied file is one it matches. *)
Definition from_template (ext : externals) (inv : invocation) (fs : filesystem)
    (e : event) : Prop :=
  match e with
  | Cpy source _ => source = template_pattern inv
  | CopyFile from _ => In from (glob ext (template_pattern inv) fs)
  | _ => True
  end.

(** The lines [scaffold] prints (lines 150-154, 171-177, 197 and 199-207). *)
Definition creating_line (targetPath : string) : string :=
  "🚀 Creating a new Scaffold-ETH 2 app in " ++ targetPath.

Definition installing_line (manager : packageManager) : string :=
  "📦 Installing dependencies with " ++ manager_name manager
  ++ ". This could take a while.".

Definition done_line : string := "🌈 Done! Thanks for using Scaffold-ETH 2 🙏".

Definition get_started_line (projectPath : string) (manager : packageManager) : string :=
  "👉 To get started, run cd " ++ projectPath ++ " and then "
  ++ manager_name manager
  ++ (match manager with npm => " run" | _ => "" end) ++ " start".

(** What the git step does when every command succeeds. *)
Definition git_events (inv : invocation) (targetPath : string) : list event :=
  if skipGit (opts inv) then []
  else [ConsoleLog "📚 Initializing git repository";
        Execa "git" ["init"] targetPath;
        Execa "git" ["add"; "."] targetPath;
        Execa "git"
          ["commit"; "--no-verify"; "--message"; "Initial commit from create-se2"]
          targetPath].

(** Any event but the success message. *)
Definition not_done (e : event) : Prop := e <> ConsoleLog done_line.

Definition is_prompt (e : event) : bool :=
  match e with Prompt _ _ => true | _ => false end.

Definition no_prompt (e : event) : Prop := is_prompt e = false.

(** An effect that names a place names the target directory: the
    destination of the copy, the manifest written, the directory a child
    process runs in. *)
Definition directed (targetPath : string) (e : event) : Prop :=
  match e with
  | Cpy _ destination => destination = targetPath
  | WriteFile path => path = Path.join [targetPath; "package.json"]
  | Execa _ _ dir => dir = targetPath
  | _ => True
  end.

(** The directory the template pattern starts from. *)
Definition template_root (inv : invocation) : string :=
  glob_parent (template_pattern inv).

(** [path] lies below the directory [dir]: the way from [dir] to it is not
    empty and does not start by going up. *)
Definition below (cwd dir path : string) : bool :=
  let rel := Path.relative cwd dir path in
  negb (String.eqb rel "") && negb (String.eqb (hd "" (Path.split rel)) "..").

(** [s] has no separator in it. *)
Fixpoint no_sep (s : string) : bool :=
  match s with
  | EmptyString => true
  | String c s' => negb (Ascii.eqb c "/") && no_sep s'
  end.

(** A segment that [path.normalize] keeps where it stands. *)
Definition proper (seg : string) : bool :=
  negb (JsString.array_includes [""; "."; ".."] seg) && no_sep seg.

(** ** A sample world, for the examples *)

Module Sample.

(** A stand-in for the package-name rule: one or more lower-case letters,
    digits and hyphens, not starting with a hyphen. *)
Definition name_char (c : ascii) : bool :=
  let n := nat_of_ascii c in
  (Nat.leb 97 n && Nat.leb n 122) || (Nat.leb 48 n && Nat.leb n 57) || Nat.eqb n 45.

Fixpoint all_chars (ok : ascii -> bool) (s : string) : bool :=
  match s with
  | EmptyString => true
  | String c s' => ok c && all_chars ok s'
  end.

Definition valid_name (s : string) : bool :=
  match s with
  | EmptyString => false
  | String c _ => negb (Ascii.eqb c "-") && all_chars name_char s
  end.

Definition manifest : json :=
  JObject [ ("name", JString "se-2"); ("version", JString "0.0.1");
            ("private", JBool true); ("scripts", JObject [("start", JString "next dev")]) ].

Definition manifest_text : string := Json.stringify manifest 0.

(** A parser that knows the one manifest. *)
Definition parse (text : string) : option json :=
  if String.eqb text manifest_text then Some manifest else None.

Definition hidden (path : string) : bool :=
  existsb (fun seg => JsString.startsWith seg ".") (Path.split path).

(** The files below the pattern's directory, dot files and directories
    apart. *)
Definition files_below (pattern : string) (fs : filesystem) : list string :=
  let root := glob_parent pattern ++ "/" in
  List.filter
    (fun path =>
       JsString.startsWith path root && Fs.is_file fs path
       && negb (hidden (JsString.drop (String.length root) path)))
    (List.map fst (map_to_list fs)).

(** A stand-in for the test of the [junk] package: the plain names of its
    list, and the backup files, whose name ends in a tilde. *)
Fixpoint ends_in_tilde (name : string) : bool :=
  match name with
  | EmptyString => false
  | String c EmptyString => Ascii.eqb c "~"
  | String _ rest => ends_in_tilde rest
  end.

Definition junk (name : string) : bool :=
  JsString.array_includes
    ["npm-debug.log"; ".DS_Store"; ".AppleDouble"; ".LSOverride"; "__MACOSX";
     "Thumbs.db"; "ehthumbs.db"; "Desktop.ini"] name
  || ends_in_tilde name.

(** Every child process succeeds and writes nothing. *)
Definition ext : externals :=
  {| validForNewPackages := valid_name;
     JSON_parse := parse;
     glob := files_below;
     isJunk := junk;
     child_process := fun _ _ _ fs => (true, fs);
     shell := fun _ fs => (true, fs) |}.

(** The same on a machine without pnpm, and on one with neither pnpm nor
    yarn. *)
Definition ext_yarn : externals :=
  {| validForNewPackages := valid_name;
     JSON_parse := parse;
     glob := files_below;
     isJunk := junk;
     child_process := fun _ _ _ fs => (true, fs);
     shell := fun command fs => (String.eqb command "yarn --version", fs) |}.

Definition ext_bare : externals :=
  {| validForNewPackages := valid_name;
     JSON_parse := parse;
     glob := files_below;
     isJunk := junk;
     child_process := fun _ _ _ fs => (true, fs);
     shell := fun _ fs => (false, fs) |}.

(** The same where [git add] fails. *)
Definition ext_git_add_fails : externals :=
  {| validForNewPackages := valid_name;
     JSON_parse := parse;
     glob := files_below;
     isJunk := junk;
     child_process := fun file args _ fs =>
       (negb (String.eqb file "git" && String.eqb (JsString.join " " args) "add ."), fs);
     shell := fun _ fs => (true, fs) |}.

Definition template : string := "/opt/create-se2/templates/nextjs".

(** The tool installed under [/opt/create-se2], with a small template. *)
Definition disk : filesystem :=
  list_to_map
    [ ("/opt", Dir); ("/opt/create-se2", Dir); ("/opt/create-se2/templates", Dir);
      (template, Dir);
      (template ++ "/package.json", File manifest_text);
      (template ++ "/_dot_gitignore", File "node_modules");
      (template ++ "/CHANGELOG.md", File "# 0.0.1");
      (template ++ "/pages", Dir);
      (template ++ "/pages/index.tsx", File "export default Home");
      (template ++ "/node_modules", Dir);
      (template ++ "/node_modules/next", Dir);
      (template ++ "/node_modules/next/index.js", File "module.exports = 1");
      ("/home", Dir); ("/home/dev", Dir) ].

Definition no_flags : options :=
  {| useNpm := false; useYarn := false; usePnpm := false; skipGit := false |}.

(** [create-se2 my-app] run from [/home/dev]. *)
Definition my_app : invocation :=
  {| project_directory := Some "my-app";
     opts := no_flags;
     npm_config_user_agent := Some "npm/10.2.4 node/v20.11.0 linux x64";
     cwd := "/home/dev";
     __dirname := "/opt/create-se2/dist/";
     typed := [] |}.


(** A disk where the target of [my_app] is there already. *)
Definition disk_taken : filesystem := <["/home/dev/my-app" := Dir]> disk.

(** A disk where the template has been copied to [/home/dev/my-app]. *)
Definition disk_copied : filesystem :=
  <["/home/dev/my-app/package.json" := File manifest_text]>
    (<["/home/dev/my-app" := Dir]> disk).

(** [create-se2 "  "]: the user then submits a name that is rejected and
    aborts the prompt. *)
Definition blank_name : invocation :=
  {| project_directory := Some "  ";
     opts := no_flags;
     npm_config_user_agent := None;
     cwd := "/home/dev";
     __dirname := "/opt/create-se2/dist/";
     typed := ["My App"] |}.

(** [create-se2 ethers], [create-se2 "My App"] and
    [create-se2 my-app --use-pnpm --skip-git]. *)
Definition named (name : string) (flags : options) : invocation :=
  {| project_directory := Some name;
     opts := flags;
     npm_config_user_agent := None;
     cwd := "/home/dev";
     __dirname := "/opt/create-se2/dist/";
     typed := [] |}.

Definition pnpm_skip_git : options :=
  {| useNpm := false; useYarn := false; usePnpm := true; skipGit := true |}.

(** [create-se2 my-app --use-pnpm --use-yarn] started by yarn. *)
Definition pnpm_and_yarn : invocation :=
  {| project_directory := Some "my-app";
     opts := {| useNpm := false; useYarn := true; usePnpm := true; skipGit := false |};
     npm_config_user_agent := Some "yarn/1.22.19 npm/? node/v20.11.0 linux x64";
     cwd := "/home/dev";
     __dirname := "/opt/create-se2/dist/";
     typed := [] |}.

(** The sample externals where every install fails. *)
Definition ext_install_fails : externals :=
  {| validForNewPackages := valid_name;
     JSON_parse := parse;
     glob := files_below;
     isJunk := junk;
     child_process := fun _ args _ fs =>
       (negb (String.eqb (JsString.join " " args) "install"), fs);
     shell := fun _ fs => (true, fs) |}.

(** The sample externals with a parser that also knows the empty array. *)
Definition ext_array : externals :=
  {| validForNewPackages := valid_name;
     JSON_parse := fun text => if String.eqb text "[]" then Some (JArray []) else parse text;
     glob := files_below;
     isJunk := junk;
     child_process := fun _ _ _ fs => (true, fs);
     shell := fun _ fs => (true, fs) |}.

(** A disk where the copied manifest is the empty array. *)
Definition disk_array : filesystem :=
  <["/home/dev/my-app/package.json" := File "[]"]> (<["/home/dev/my-app" := Dir]> disk).

(** [create-se2] with no argument: the user submits [ethers], then
    [my-app]. *)
Definition prompted_my_app : invocation :=
  {| project_directory := None;
     opts := no_flags;
     npm_config_user_agent := None;
     cwd := "/home/dev";
     __dirname := "/opt/create-se2/dist/";
     typed := ["ethers"; "my-app"] |}.

(** A template whose directory [sub] holds one file, named by the bare
    marker. *)
Definition disk_marker : filesystem :=
  list_to_map
    [ ("/opt", Dir); ("/opt/create-se2", Dir); ("/opt/create-se2/templates", Dir);
      (template, Dir);
      (template ++ "/sub", Dir);
      (template ++ "/sub/_dot_", File "marker");
      ("/home", Dir); ("/home/dev", Dir) ].

(** The sample template with a thumbnail cache and a backup file in it. *)
Definition disk_junk : filesystem :=
  <[template ++ "/Thumbs.db" := File "cache"]>
    (<[template ++ "/pages/index.tsx~" := File "export default Hom"]> disk).

End Sample.

(** * Theorems *)

(** ** The library functions on examples *)

Example trim_example :
  JsString.trim ("  my-app" ++ String "009" (String "010" "")) = "my-app".
Proof. reflexivity. Qed.

Example join_dotdot :
  Path.join ["/opt/create-se2/dist/"; ".."; "templates"] = "/opt/create-se2/templates".
Proof. reflexivity. Qed.

Example join_scoped :
  Path.join ["/home/dev"; "@acme/app"] = "/home/dev/@acme/app".
Proof. reflexivity. Qed.

Example relative_example :
  Path.relative "/home/dev" "/opt/t/nextjs" "/opt/t/nextjs/pages/_dot_eslintrc.json"
  = "pages/_dot_eslintrc.json".
Proof. reflexivity. Qed.

Example relative_up :
  Path.relative "/home/dev" "/opt/t/nextjs" "/opt/x/y" = "../../x/y".
Proof. reflexivity. Qed.

Example dirname_basename :
  Path.dirname "pages/api/x.ts" = "pages/api" /\ Path.basename "pages/api/x.ts" = "x.ts"
  /\ Path.dirname "x.ts" = "." /\ Path.dirname "/x.ts" = "/".
Proof. repeat split; reflexivity. Qed.

Example stringify_example :
  let q := Json.quote in
  Json.stringify
    (JObject [("name", JString "se-2"); ("private", JBool true);
              ("workspaces", JArray [JString "packages/*"]);
              ("scripts", JObject [])]) 2
  = JsString.join Json.newline
      ["{";
       "  " ++ q "name" ++ ": " ++ q "se-2" ++ ",";
       "  " ++ q "private" ++ ": true,";
       "  " ++ q "workspaces" ++ ": [";
       "    " ++ q "packages/*";
       "  ],";
       "  " ++ q "scripts" ++ ": {}";
       "}"].
Proof. vm_compute. reflexivity. Qed.

Example quote_example :
  Json.quote (String "034" ("a\b" ++ String "010" (String "001" "")))
  = String "034" (String "\" (String "034" ("a\\b\n\u0001" ++ String "034" ""))).
Proof. vm_compute. reflexivity. Qed.

Example ancestors_example :
  Fs.ancestors "/home/dev/app/pages" =
  ["/home"; "/home/dev"; "/home/dev/app"; "/home/dev/app/pages"].
Proof. reflexivity. Qed.

Example sample_glob :
  glob Sample.ext (Sample.template ++ "/**/*") Sample.disk
  = [ "/opt/create-se2/templates/nextjs/_dot_gitignore";
      "/opt/create-se2/templates/nextjs/CHANGELOG.md";
      "/opt/create-se2/templates/nextjs/node_modules/next/index.js";
      "/opt/create-se2/templates/nextjs/pages/index.tsx";
      "/opt/create-se2/templates/nextjs/package.json" ].
Proof. vm_compute. reflexivity. Qed.

(** ** Reasoning about computations *)

Lemma bind_run {A B} (m : M A) (k : A -> M B) (fs : filesystem) :
  (m ≫= k) fs =
  match m fs with
  | (Ok a, fs1, ev1) =>
      match k a fs1 with
      | (r, fs2, ev2) => (r, fs2, (ev1 ++ ev2)%list)
      end
  | (Throw e, fs1, ev1) => (Throw e, fs1, ev1)
  | (Exited code, fs1, ev1) => (Exited code, fs1, ev1)
  end.
Proof. reflexivity. Qed.

Lemma ret_run {A} (a : A) (fs : filesystem) : (mret a : M A) fs = (Ok a, fs, []).
Proof. reflexivity. Qed.

Lemma log_run (line : string) (fs : filesystem) :
  log line fs = (Ok tt, fs, [ConsoleLog line]).
Proof. reflexivity. Qed.

(** Unfold the plumbing of the monad, down to the results of the calls. *)
Ltac run_monad :=
  cbv beta iota zeta delta
    [mbind mret M_bind M_ret log emit throw process_exit try_catch].

(** ** JavaScript strings: facts *)

Lemma append_cons (c : ascii) (p s : string) :
  String c p ++ s = String c (p ++ s).
Proof. reflexivity. Qed.

Lemma startsWith_app (p s : string) : JsString.startsWith (p ++ s) p = true.
Proof.
  unfold JsString.startsWith.
  induction p as [|c p IH].
  - destruct s; reflexivity.
  - rewrite append_cons. cbn.
    destruct (ascii_dec c c); [exact IH | congruence].
Qed.

Lemma startsWith_split (s p : string) :
  JsString.startsWith s p = true ->
  s = p ++ JsString.drop (String.length p) s.
Proof.
  unfold JsString.startsWith. revert s.
  induction p as [|c p IH]; intros s H.
  - reflexivity.
  - destruct s as [|d s]; [discriminate|].
    cbn in H. destruct (ascii_dec c d) as [->|]; [|discriminate].
    rewrite append_cons. cbn. f_equal. apply IH, H.
Qed.

Lemma drop_app (p s : string) : JsString.drop (String.length p) (p ++ s) = s.
Proof.
  induction p as [|c p IH]; [reflexivity|].
  rewrite append_cons. cbn. exact IH.
Qed.

Lemma includes_cons (c : ascii) (s frag : string) :
  JsString.includes (String c s) frag
  = JsString.startsWith (String c s) frag || JsString.includes s frag.
Proof. reflexivity. Qed.

Lemma includes_app_r (p s frag : string) :
  JsString.includes s frag = true -> JsString.includes (p ++ s) frag = true.
Proof.
  intros H. induction p as [|c p IH]; [exact H|].
  rewrite append_cons, includes_cons, IH. apply orb_true_r.
Qed.

(** [includes] is the substring test. *)
Lemma includes_substring (s frag : string) :
  JsString.includes s frag = true <-> exists pre post, s = pre ++ frag ++ post.
Proof.
  split.
  - induction s as [|c s IH].
    + change (JsString.includes "" frag) with (JsString.startsWith "" frag || false).
      rewrite orb_false_r. intros H. apply startsWith_split in H.
      exists "", (JsString.drop (String.length frag) ""). exact H.
    + rewrite includes_cons. intros H. apply orb_true_iff in H. destruct H as [H|H].
      * apply startsWith_split in H.
        exists "", (JsString.drop (String.length frag) (String c s)). exact H.
      * destruct (IH H) as [pre [post ->]]. exists (String c pre), post. reflexivity.
  - intros [pre [post ->]]. apply includes_app_r.
    pose proof (startsWith_app frag post) as H.
    destruct (frag ++ post) as [|c rest];
      [change (JsString.includes "" frag) with (JsString.startsWith "" frag || false)
      |rewrite includes_cons];
      rewrite H; reflexivity.
Qed.

Lemma array_includes_In (a : list string) (x : string) :
  JsString.array_includes a x = true <-> In x a.
Proof.
  unfold JsString.array_includes. rewrite existsb_exists. split.
  - intros [y [Hy Heq]]. apply String.eqb_eq in Heq. subst. exact Hy.
  - intros H. exists x. split; [exact H | apply String.eqb_refl].
Qed.

Lemma array_find_eq_In (a : list string) (x : string) :
  In x a -> JsString.array_find_eq a x = Some x.
Proof.
  unfold JsString.array_find_eq. induction a as [|y a IH]; cbn; [tauto|].
  intros [->|H].
  - rewrite String.eqb_refl. reflexivity.
  - destruct (String.eqb_spec y x) as [->|]; [reflexivity | auto].
Qed.

(** ** What the steps emit and how they end *)

Section Emits.

Context (P : event -> Prop).

Lemma emits_ret {A} (a : A) : emits P (mret a : M A).
Proof. intros fs. constructor. Qed.

Lemma emits_emit (e : event) : P e -> emits P (emit e).
Proof. intros H fs. cbn. auto. Qed.

Lemma emits_log (line : string) : P (ConsoleLog line) -> emits P (log line).
Proof. apply emits_emit. Qed.

Lemma emits_bind {A B} (m : M A) (k : A -> M B) :
  emits P m -> (forall a, emits P (k a)) -> emits P (m ≫= k).
Proof.
  intros Hm Hk fs. rewrite bind_run. specialize (Hm fs).
  destruct (m fs) as [[[a|e|code] fs1] ev1]; cbn in *; auto.
  specialize (Hk a fs1). destruct (k a fs1) as [[r fs2] ev2]; cbn in *.
  apply Forall_app; auto.
Qed.

Lemma emits_try_catch {A} (body : M A) (handler : exn -> M A) :
  emits P body -> (forall e, emits P (handler e)) -> emits P (try_catch body handler).
Proof.
  intros Hb Hh fs. unfold try_catch. specialize (Hb fs).
  destruct (body fs) as [[[a|e|code] fs1] ev1]; cbn in *; auto.
  specialize (Hh e fs1). destruct (handler e fs1) as [[r fs2] ev2]; cbn in *.
  apply Forall_app; auto.
Qed.

Lemma emits_readJson (ext : externals) (path : string) : emits P (Fs.readJson ext path).
Proof.
  intros fs. unfold Fs.readJson.
  destruct (fs !! path) as [[text|]|]; [destruct (JSON_parse ext text)| |]; constructor.
Qed.

Lemma emits_writeFile (path data : string) :
  P (WriteFile path) -> emits P (Fs.writeFile path data).
Proof.
  intros H fs. unfold Fs.writeFile.
  destruct (fs !! path) as [[text|]|]; [| |destruct (Fs.is_dir fs (Path.dirname path))];
    cbn; auto.
Qed.

Lemma emits_copyFile (from to : string) :
  P (CopyFile from to) -> emits P (Fs.copyFile from to).
Proof.
  intros H fs. unfold Fs.copyFile.
  destruct (fs !! from) as [[text|]|]; cbn; auto.
  destruct (existsb _ _); cbn; auto.
  destruct (Fs.is_dir fs to); cbn; auto.
Qed.

Lemma emits_copy_each (jobs : list (string * string)) :
  (forall job, In job jobs -> P (CopyFile (fst job) (snd job))) ->
  emits P (copy_each jobs).
Proof.
  induction jobs as [|job jobs IH]; intros H; cbn [copy_each].
  - apply emits_ret.
  - apply emits_bind.
    + apply emits_copyFile, H. left. reflexivity.
    + intros _. apply IH. intros j Hj. apply H. right. exact Hj.
Qed.

Lemma emits_execSync (ext : externals) (command : string) :
  P (ExecSync command) -> emits P (execSync ext command).
Proof.
  intros H fs. unfold execSync.
  destruct (shell ext command fs) as [[|] fs']; cbn; auto.
Qed.

Lemma emits_execa (ext : externals) (file : string) (args : list string) (dir : string) :
  P (Execa file args dir) -> emits P (execa ext file args dir).
Proof.
  intros H fs. unfold execa.
  destruct (child_process ext file args dir fs) as [[|] fs']; cbn; auto.
Qed.

Lemma emits_set_property (obj : json) (key : string) (value : json) :
  emits P (set_property obj key value).
Proof. destruct obj; intros fs; constructor. Qed.

Lemma emits_detectPackageManager (ext : externals) (userAgent : option string) :
  P (ExecSync "pnpm --version") -> P (ExecSync "yarn --version") ->
  emits P (detectPackageManager ext userAgent).
Proof.
  intros Hp Hy. unfold detectPackageManager.
  apply emits_try_catch; [|intros; apply emits_ret].
  destruct (from_user_agent userAgent); [apply emits_ret|].
  apply emits_try_catch; [|intros _];
    (apply emits_bind; [apply emits_execSync; assumption | intros; apply emits_ret]).
Qed.

End Emits.

Section Plain.

Lemma plain_ret {A} (a : A) : plain (mret a : M A).
Proof. intros fs. exact I. Qed.

Lemma plain_log (line : string) : plain (log line).
Proof. intros fs. exact I. Qed.

Lemma plain_bind {A B} (m : M A) (k : A -> M B) :
  plain m -> (forall a, plain (k a)) -> plain (m ≫= k).
Proof.
  intros Hm Hk fs. rewrite bind_run. specialize (Hm fs).
  destruct (m fs) as [[[a|e|code] fs1] ev1]; cbn in *; auto.
  specialize (Hk a fs1). destruct (k a fs1) as [[r fs2] ev2]; cbn in *. exact Hk.
Qed.

Lemma plain_try_catch {A} (body : M A) (handler : exn -> M A) :
  plain body -> (forall e, plain (handler e)) -> plain (try_catch body handler).
Proof.
  intros Hb Hh fs. unfold try_catch. specialize (Hb fs).
  destruct (body fs) as [[[a|e|code] fs1] ev1]; cbn in *; auto.
  specialize (Hh e fs1). destruct (handler e fs1) as [[r fs2] ev2]; cbn in *. exact Hh.
Qed.

Lemma plain_readJson (ext : externals) (path : string) : plain (Fs.readJson ext path).
Proof.
  intros fs. unfold Fs.readJson.
  destruct (fs !! path) as [[text|]|]; [destruct (JSON_parse ext text)| |]; exact I.
Qed.

Lemma plain_writeFile (path data : string) : plain (Fs.writeFile path data).
Proof.
  intros fs. unfold Fs.writeFile.
  destruct (fs !! path) as [[text|]|]; [| |destruct (Fs.is_dir fs (Path.dirname path))];
    exact I.
Qed.

Lemma plain_copyFile (from to : string) : plain (Fs.copyFile from to).
Proof.
  intros fs. unfold Fs.copyFile.
  destruct (fs !! from) as [[text|]|]; try exact I.
  destruct (existsb _ _); try exact I.
  destruct (Fs.is_dir fs to); exact I.
Qed.

Lemma plain_copy_each (jobs : list (string * string)) : plain (copy_each jobs).
Proof.
  induction jobs as [|job jobs IH]; cbn [copy_each].
  - apply plain_ret.
  - apply plain_bind; [apply plain_copyFile | intros _; exact IH].
Qed.

Lemma plain_cpy (ext : externals) (dir source destination : string)
    (keep : string -> bool) (rename_to : string -> string) :
  plain (cpy ext dir source destination keep rename_to).
Proof.
  unfold cpy. apply plain_bind; [intros fs; exact I|].
  intros _ fs. apply plain_copy_each.
Qed.

Lemma plain_execSync (ext : externals) (command : string) : plain (execSync ext command).
Proof.
  intros fs. unfold execSync.
  destruct (shell ext command fs) as [[|] fs']; exact I.
Qed.

Lemma plain_execa (ext : externals) (file : string) (args : list string) (dir : string) :
  plain (execa ext file args dir).
Proof.
  intros fs. unfold execa.
  destruct (child_process ext file args dir fs) as [[|] fs']; exact I.
Qed.

Lemma plain_set_property (obj : json) (key : string) (value : json) :
  plain (set_property obj key value).
Proof. destruct obj; intros fs; exact I. Qed.

Lemma plain_detectPackageManager (ext : externals) (userAgent : option string) :
  plain (detectPackageManager ext userAgent).
Proof.
  unfold detectPackageManager.
  apply plain_try_catch; [|intros; apply plain_ret].
  destruct (from_user_agent userAgent); [apply plain_ret|].
  apply plain_try_catch; [|intros _];
    (apply plain_bind; [apply plain_execSync | intros; apply plain_ret]).
Qed.

Lemma plain_scaffold (ext : externals) (inv : invocation) (projectPath targetPath : string) :
  plain (scaffold ext inv projectPath targetPath).
Proof.
  unfold scaffold, copy_template, patch_manifest, choose_packageManager, initialize_git.
  repeat first
    [ apply plain_log | apply plain_ret | apply plain_cpy | apply plain_readJson
    | apply plain_set_property | apply plain_writeFile | apply plain_execa
    | apply plain_detectPackageManager
    | apply plain_bind; [|intros ?]
    | match goal with |- plain (if ?b then _ else _) => destruct b end ].
Qed.

End Plain.

Lemma emits_cpy (P : event -> Prop) (ext : externals) (dir source destination : string)
    (keep : string -> bool) (rename_to : string -> string) :
  P (Cpy source destination) -> (forall from to, P (CopyFile from to)) ->
  emits P (cpy ext dir source destination keep rename_to).
Proof.
  intros Hcpy Hcopy. unfold cpy.
  apply emits_bind; [apply emits_emit, Hcpy|].
  intros _ fs. apply emits_copy_each. intros job _. apply Hcopy.
Qed.

Lemma bind_split {A B} (P : event -> Prop) (m : M A) (k : A -> M B) (fs : filesystem) :
  (forall a, emits P (k a)) ->
  exists rest, snd ((m ≫= k) fs) = (snd (m fs) ++ rest)%list /\ Forall P rest.
Proof.
  intros Hk. rewrite bind_run.
  destruct (m fs) as [[[a|e|code] fs1] ev1]; cbn [snd].
  - specialize (Hk a fs1). destruct (k a fs1) as [[r fs2] ev2]. cbn [snd] in *. eauto.
  - exists []. rewrite app_nil_r. auto.
  - exists []. rewrite app_nil_r. auto.
Qed.

Lemma string_append_assoc (a b c : string) : (a ++ b) ++ c = a ++ b ++ c.
Proof.
  induction a as [|x a IH]; [reflexivity|].
  rewrite !append_cons, IH. reflexivity.
Qed.

(** ** A run, step by step *)

Lemma main_run (ext : externals) (inv : invocation) (fs : filesystem) :
  main ext inv fs =
  match project_name ext inv with
  | Some name =>
      match create ext inv name fs with
      | (r, fs', events) => (r, fs', (opening inv ++ events)%list)
      end
  | None => (Ok tt, fs, (opening inv ++ [ConsoleLog ""])%list)
  end.
Proof.
  unfold main, project_name, opening, prompted, prompts.
  destruct (JsString.trim <$> project_directory inv) as [[|c name]|]; run_monad.
  - destruct (prompt_value (validate ext) (typed inv)) as [name|]; [|reflexivity].
    destruct (create ext inv name fs) as [[r fs'] events]. reflexivity.
  - destruct (create ext inv (String c name) fs) as [[r fs'] events]. reflexivity.
  - destruct (prompt_value (validate ext) (typed inv)) as [name|]; [|reflexivity].
    destruct (create ext inv name fs) as [[r fs'] events]. reflexivity.
Qed.

Lemma create_run (ext : externals) (inv : invocation) (name : string) (fs : filesystem) :
  create ext inv name fs =
  if negb (isValidProjectName ext name) then
    (Throw (FriendlyError invalid_name_message), fs, [ConsoleLog ""])
  else if JsString.array_includes reservedPackageNames name then
    (Throw (FriendlyError (reserved_name_message name)), fs, [ConsoleLog ""])
  else if bool_decide (is_Some (fs !! Path.join [cwd inv; name])) then
    (Throw (FriendlyError (target_exists_message name)), fs, [ConsoleLog ""])
  else
    match scaffold ext inv name (Path.join [cwd inv; name]) fs with
    | (r, fs', events) => (r, fs', ConsoleLog "" :: events)
    end.
Proof.
  unfold create, check_name, check_target, Fs.existsSync. run_monad.
  destruct (negb (isValidProjectName ext name)); [reflexivity|].
  destruct (JsString.array_includes reservedPackageNames name); [reflexivity|].
  destruct (bool_decide (is_Some (fs !! Path.join [cwd inv; name]))); [reflexivity|].
  destruct (scaffold ext inv name (Path.join [cwd inv; name]) fs) as [[r fs'] events].
  reflexivity.
Qed.

Lemma execute_run (ext : externals) (inv : invocation) (fs : filesystem) :
  execute ext inv fs =
  match main ext inv fs with
  | (Ok _, fs', events) => (ExitCode 0, fs', events)
  | (Throw (FriendlyError message), fs', events) =>
      (ExitCode 1, fs', (events ++ [ConsoleLog message])%list)
  | (Throw (Error message), fs', events) => (Uncaught (Error message), fs', events)
  | (Exited code, fs', events) => (ExitCode code, fs', events)
  end.
Proof.
  unfold execute, run. run_monad.
  destruct (main ext inv fs) as [[[a|[message|message]|code] fs'] events];
    try reflexivity.
  rewrite app_nil_r. reflexivity.
Qed.

Lemma opening_interaction (inv : invocation) : Forall interaction (opening inv).
Proof.
  unfold opening. destruct (prompted inv); repeat constructor.
Qed.

(** ** The name checks *)

(** C1 (NameValidator trichotomy).  For every candidate name [s]: when [s]
    fails the package-name rule, the checks throw the [FriendlyError] of an
    invalid name; when [s] passes the rule and is one of the reserved names,
    they throw the [FriendlyError] of a reserved name, which quotes [s]
    itself; in every other case they pass.  Nothing is written and nothing
    is run either way, and a name counts as reserved exactly when it is equal
    to an entry of the list. *)
Theorem name_validator_trichotomy (ext : externals) (s : string) (fs : filesystem) :
  (isValidProjectName ext s = false ->
   check_name ext s fs = (Throw (FriendlyError invalid_name_message), fs, []))
  /\ (isValidProjectName ext s = true -> In s reservedPackageNames ->
      check_name ext s fs = (Throw (FriendlyError (reserved_name_message s)), fs, [])
      /\ JsString.array_find_eq reservedPackageNames s = Some s)
  /\ (isValidProjectName ext s = true -> ~ In s reservedPackageNames ->
      check_name ext s fs = (Ok tt, fs, []))
  /\ (JsString.array_includes reservedPackageNames s = true <-> In s reservedPackageNames).
Proof.
  unfold check_name. split; [|split; [|split]].
  - intros Hvalid. rewrite Hvalid. reflexivity.
  - intros Hvalid Hreserved. split.
    + rewrite bind_run, Hvalid. cbn [negb]. rewrite ret_run.
      apply array_includes_In in Hreserved. rewrite Hreserved. reflexivity.
    + apply array_find_eq_In, Hreserved.
  - intros Hvalid Hfree. rewrite bind_run, Hvalid. cbn [negb]. rewrite ret_run.
    destruct (JsString.array_includes reservedPackageNames s) eqn:Hincludes.
    + apply array_includes_In in Hincludes. contradiction.
    + reflexivity.
  - apply array_includes_In.
Qed.

Lemma name_validator_trichotomy_witness :
  check_name Sample.ext "My App" Sample.disk
    = (Throw (FriendlyError invalid_name_message), Sample.disk, [])
  /\ check_name Sample.ext "ethers" Sample.disk
    = (Throw (FriendlyError (reserved_name_message "ethers")), Sample.disk, [])
  /\ check_name Sample.ext "my-app" Sample.disk = (Ok tt, Sample.disk, []).
Proof.
  split; [|split].
  - apply (proj1 (name_validator_trichotomy Sample.ext "My App" Sample.disk)).
    reflexivity.
  - apply (proj1 (proj2 (name_validator_trichotomy Sample.ext "ethers" Sample.disk))).
    + reflexivity.
    + unfold reservedPackageNames. cbn. tauto.
  - apply (proj1 (proj2 (proj2 (name_validator_trichotomy Sample.ext "my-app" Sample.disk)))).
    + reflexivity.
    + unfold reservedPackageNames. cbn.
      intros H. repeat (destruct H as [H|H]; [discriminate H|]). exact H.
Defined.

(** ** The template copy *)

Lemma copy_each_events (jobs : list (string * string)) (fs : filesystem) :
  exists n,
    snd (copy_each jobs fs) = List.map copy_event (firstn n jobs)
    /\ (forall fs', fst (copy_each jobs fs) = (Ok tt, fs') -> n = length jobs).
Proof.
  revert fs. induction jobs as [|job jobs IH]; intros fs.
  - exists 0. split; [reflexivity|]. reflexivity.
  - cbn [copy_each]. rewrite bind_run.
    assert (Hcopy : (exists fs1, Fs.copyFile (fst job) (snd job) fs
                                 = (Ok tt, fs1, [copy_event job]))
                    \/ (exists e, Fs.copyFile (fst job) (snd job) fs = (Throw e, fs, []))).
    { unfold Fs.copyFile.
      destruct (fs !! fst job) as [[content|]|]; eauto.
      destruct (existsb _ _); eauto.
      destruct (Fs.is_dir fs (snd job)); eauto. }
    destruct Hcopy as [[fs1 ->]|[e ->]].
    + destruct (IH fs1) as [n [Hev Hok]].
      destruct (copy_each jobs fs1) as [[r fs2] ev2]. cbn [fst snd] in *.
      exists (S n). split.
      * cbn. rewrite Hev. reflexivity.
      * intros fs' [= -> ->]. cbn. f_equal. eapply Hok. reflexivity.
    + exists 0. split; [reflexivity|]. intros fs' H. discriminate H.
Qed.

Lemma copy_template_events (ext : externals) (inv : invocation) (targetPath : string)
    (fs : filesystem) :
  exists n,
    snd (copy_template ext inv targetPath fs)
    = Cpy (template_pattern inv) targetPath
      :: List.map copy_event (firstn n (template_jobs ext inv targetPath fs))
    /\ (forall fs', fst (copy_template ext inv targetPath fs) = (Ok tt, fs') ->
        n = length (template_jobs ext inv targetPath fs)).
Proof.
  unfold copy_template, cpy, template_jobs, template_pattern, selectedTemplatePath.
  run_monad.
  match goal with
  | |- context [copy_each ?jobs fs] =>
      destruct (copy_each_events jobs fs) as [n [Hev Hok]];
      destruct (copy_each jobs fs) as [[r fs1] ev1]
  end.
  cbn [fst snd] in *. exists n. split.
  - rewrite Hev. reflexivity.
  - intros fs' [= -> ->]. eapply Hok. reflexivity.
Qed.

Lemma in_firstn {A} (x : A) (n : nat) (l : list A) : In x (firstn n l) -> In x l.
Proof.
  intros H. rewrite <- (firstn_skipn n l). apply in_or_app. left. exact H.
Qed.


Lemma template_jobs_sources (ext : externals) (inv : invocation) (targetPath : string)
    (fs : filesystem) (from to : string) :
  In (from, to) (template_jobs ext inv targetPath fs) <->
  In from (glob ext (template_pattern inv) fs)
  /\ isJunk ext (Path.basename from) = false
  /\ copy_filter inv from = true
  /\ to = destination_of (cwd inv) (template_pattern inv) targetPath rename from.
Proof.
  unfold template_jobs, copy_jobs, matches. rewrite in_map_iff. split.
  - intros [path [[= <- <-] Hin]].
    apply List.filter_In in Hin. destruct Hin as [Hin Hkeep].
    apply List.filter_In in Hin. destruct Hin as [Hin Hjunk].
    apply negb_true_iff in Hjunk. tauto.
  - intros [Hin [Hjunk [Hkeep ->]]]. exists from. split; [reflexivity|].
    apply List.filter_In. split; [|exact Hkeep].
    apply List.filter_In. split; [exact Hin|]. apply negb_true_iff, Hjunk.
Qed.




(** Junk among the matches is not copied: on a template with a thumbnail
    cache and a backup file, the copies are those of the sample template. *)
Example junk_not_copied :
  glob Sample.ext (template_pattern Sample.my_app) Sample.disk_junk
  = List.map (fun name => Sample.template ++ "/" ++ name)
      ["_dot_gitignore"; "CHANGELOG.md"; "node_modules/next/index.js"; "Thumbs.db";
       "pages/index.tsx~"; "pages/index.tsx"; "package.json"]
  /\ List.map fst (template_jobs Sample.ext Sample.my_app "/home/dev/my-app" Sample.disk_junk)
     = List.map (fun name => Sample.template ++ "/" ++ name)
         ["_dot_gitignore"; "pages/index.tsx"; "package.json"].
Proof.
  split; vm_compute; reflexivity.
Qed.


(** ** Base names, through [path.relative], [path.join] and the rename *)

Lemma split_not_nil (p : string) : Path.split p <> [].
Proof.
  destruct p as [|c p]; cbn [Path.split]; [discriminate|].
  destruct (Ascii.eqb c "/"); [discriminate|].
  destruct (Path.split p); discriminate.
Qed.

Lemma split_no_sep (p : string) : Forall (fun seg => no_sep seg = true) (Path.split p).
Proof.
  induction p as [|c p IH]; cbn [Path.split]; [repeat constructor|].
  destruct (Ascii.eqb c "/") eqn:Hc; [constructor; [reflexivity | exact IH]|].
  destruct (Path.split p) as [|seg rest]; [repeat constructor; cbn; rewrite Hc; reflexivity|].
  inversion IH as [|? ? Hseg Hrest]; subst.
  constructor; [cbn; rewrite Hc, Hseg; reflexivity | exact Hrest].
Qed.

Lemma split_name (n : string) : no_sep n = true -> Path.split n = [n].
Proof.
  induction n as [|c n IH]; [reflexivity|].
  cbn [no_sep Path.split]. intros H. apply andb_true_iff in H. destruct H as [Hc Hn].
  apply negb_true_iff in Hc. rewrite Hc, (IH Hn). reflexivity.
Qed.

Lemma split_app (a b : string) :
  Path.split (a ++ "/" ++ b) = (Path.split a ++ Path.split b)%list.
Proof.
  induction a as [|c a IH].
  - reflexivity.
  - rewrite append_cons. cbn [Path.split]. rewrite IH.
    destruct (Ascii.eqb c "/"); [reflexivity|].
    pose proof (split_not_nil a) as Ha.
    destruct (Path.split a) as [|seg rest]; [contradiction|]. reflexivity.
Qed.

Lemma join_snoc (sep : string) (xs : list string) (x n : string) :
  JsString.join sep ((x :: xs) ++ [n]) = JsString.join sep (x :: xs) ++ sep ++ n.
Proof.
  revert x. induction xs as [|y xs IH]; intros x.
  - reflexivity.
  - change (JsString.join sep ((x :: y :: xs) ++ [n]))
      with (x ++ sep ++ JsString.join sep ((y :: xs) ++ [n])).
    rewrite IH.
    change (JsString.join sep (x :: y :: xs)) with (x ++ sep ++ JsString.join sep (y :: xs)).
    rewrite !string_append_assoc. reflexivity.
Qed.

Lemma split_join_last (xs : list string) (n : string) :
  no_sep n = true ->
  exists front, Path.split (JsString.join "/" (xs ++ [n])) = (front ++ [n])%list.
Proof.
  intros Hn. destruct xs as [|x xs].
  - exists []. apply split_name, Hn.
  - rewrite join_snoc, split_app, (split_name n Hn). eauto.
Qed.

Lemma basename_last (p : string) (front : list string) (n : string) :
  Path.split p = (front ++ [n])%list -> n <> "" -> Path.basename p = n.
Proof.
  intros Hsplit Hn. unfold Path.basename.
  rewrite Hsplit, List.filter_app, rev_app_distr.
  destruct n; [contradiction|]. reflexivity.
Qed.

Lemma last_kept {A} (keep : A -> bool) (l : list A) (x : A) (rest : list A) :
  rev (List.filter keep l) = x :: rest ->
  exists front back,
    l = (front ++ x :: back)%list /\ Forall (fun y => keep y = false) back.
Proof.
  revert rest. induction l as [|y l IH] using rev_ind; intros rest; [discriminate|].
  rewrite List.filter_app, rev_app_distr. cbn [List.filter].
  destruct (keep y) eqn:Hy; cbn [rev app].
  - intros [= -> _]. exists l, []. split; [reflexivity | constructor].
  - intros H. destruct (IH _ H) as [front [back [-> Hback]]].
    exists front, (back ++ [y])%list. split; [rewrite <- app_assoc; reflexivity|].
    apply Forall_app. split; [exact Hback|]. repeat constructor. exact Hy.
Qed.

Lemma nonempty_false (s : string) : Path.nonempty s = false -> s = "".
Proof. destruct s; [reflexivity | discriminate]. Qed.

Lemma basename_split (p n : string) :
  Path.basename p = n -> n <> "" ->
  exists front back,
    Path.split p = (front ++ n :: back)%list /\ Forall (fun seg => seg = "") back.
Proof.
  unfold Path.basename. intros Hbase Hn.
  destruct (rev (List.filter Path.nonempty (Path.split p))) as [|base rest] eqn:Hrev;
    [congruence|].
  subst base. destruct (last_kept _ _ _ _ Hrev) as [front [back [Hsplit Hback]]].
  exists front, back. split; [exact Hsplit|].
  eapply Forall_impl; [exact Hback|]. exact nonempty_false.
Qed.

Lemma basename_no_sep (p : string) : no_sep (Path.basename p) = true.
Proof.
  unfold Path.basename.
  destruct (rev (List.filter Path.nonempty (Path.split p))) as [|base rest] eqn:Hrev;
    [reflexivity|].
  destruct (last_kept _ _ _ _ Hrev) as [front [back [Hsplit _]]].
  pose proof (split_no_sep p) as Hall. rewrite Hsplit in Hall.
  apply Forall_app in Hall. destruct Hall as [_ Hall].
  inversion Hall; assumption.
Qed.

Lemma proper_spec (seg : string) :
  proper seg = true ->
  String.eqb seg "" = false /\ String.eqb seg "." = false /\ String.eqb seg ".." = false
  /\ no_sep seg = true.
Proof.
  unfold proper, JsString.array_includes. cbn [existsb].
  rewrite andb_true_iff, negb_true_iff, !orb_false_iff. tauto.
Qed.

Lemma normalize_segments_snoc (above : bool) (segs acc : list string) (n : string) :
  proper n = true ->
  Path.normalize_segments above acc (segs ++ [n])
  = (Path.normalize_segments above acc segs ++ [n])%list.
Proof.
  intros Hn. destruct (proper_spec n Hn) as [H0 [H1 [H2 _]]].
  revert acc. induction segs as [|seg segs IH]; intros acc.
  - cbn. rewrite H0, H1, H2. reflexivity.
  - cbn [app Path.normalize_segments].
    destruct (String.eqb seg "" || String.eqb seg "."); [apply IH|].
    destruct (String.eqb seg "..").
    + destruct acc as [|top acc'].
      * destruct above; apply IH.
      * destruct (String.eqb top ".."); apply IH.
    + apply IH.
Qed.

Lemma normalize_segments_empty (above : bool) (segs back acc : list string) :
  Forall (fun seg => seg = "") back ->
  Path.normalize_segments above acc (segs ++ back)
  = Path.normalize_segments above acc segs.
Proof.
  intros Hback. revert acc. induction segs as [|seg segs IH]; intros acc.
  - cbn [app]. revert acc. induction Hback as [|seg back -> _ IH]; intros acc;
      [reflexivity|]. cbn. apply IH.
  - cbn [app Path.normalize_segments].
    destruct (String.eqb seg "" || String.eqb seg "."); [apply IH|].
    destruct (String.eqb seg "..").
    + destruct acc as [|top acc'].
      * destruct above; apply IH.
      * destruct (String.eqb top ".."); apply IH.
    + apply IH.
Qed.

Lemma eqb_empty (s : string) : String.eqb s "" = false -> s <> "".
Proof. intros H ->. discriminate H. Qed.

Lemma join_run (parts : list string) :
  List.filter Path.nonempty parts <> [] ->
  Path.join parts = Path.normalize (JsString.join "/" (List.filter Path.nonempty parts)).
Proof.
  unfold Path.join. destruct (List.filter Path.nonempty parts); [contradiction | reflexivity].
Qed.

Lemma snoc_not_empty (front : list string) (n : string) :
  n <> "" -> [""] <> (front ++ [n])%list.
Proof.
  intros Hn H. apply (app_inj_tail [] front "" n) in H. destruct H. congruence.
Qed.

(** [path.normalize] keeps a last segment that is a proper one. *)
Lemma basename_normalize (p : string) (front : list string) (n : string) :
  Path.split p = (front ++ [n])%list -> proper n = true ->
  Path.basename (Path.normalize p) = n.
Proof.
  intros Hsplit Hn. destruct (proper_spec n Hn) as [H0 [_ [_ Hsep]]].
  apply eqb_empty in H0.
  assert (Htrailing : Path.endsWithSep p = false).
  { unfold Path.endsWithSep. rewrite Hsplit, rev_app_distr. cbn.
    destruct n; [contradiction | reflexivity]. }
  unfold Path.normalize.
  destruct p as [|c tail] eqn:Hp; [destruct (snoc_not_empty front n H0 Hsplit)|].
  cbv iota zeta. rewrite <- Hp in *. clear Hp c tail.
  rewrite Hsplit, Htrailing, normalize_segments_snoc by exact Hn.
  set (kept := Path.normalize_segments _ _ _). clearbody kept.
  destruct (split_join_last kept n Hsep) as [front' Hbody].
  set (body := JsString.join "/" (kept ++ [n])) in *. clearbody body.
  destruct body as [|c tail] eqn:Hb; [destruct (snoc_not_empty front' n H0 Hbody)|].
  rewrite <- Hb in *. clear Hb c tail.
  destruct (Path.isAbsolute p).
  - apply (basename_last _ ("" :: front')); [|exact H0].
    change ("/" ++ body) with (String "/" body). cbn [Path.split].
    change (Ascii.eqb "/" "/") with true. cbv iota. rewrite Hbody. reflexivity.
  - apply (basename_last _ front'); assumption.
Qed.

(** [path.join] ends in its last part when that part is a proper segment. *)
Lemma basename_join (a b n : string) :
  proper n = true -> Path.basename (Path.join [a; b; n]) = n.
Proof.
  intros Hn. destruct (proper_spec n Hn) as [H0 [_ [_ Hsep]]].
  apply eqb_empty in H0.
  assert (Hkept : List.filter Path.nonempty [a; b; n]
                  = (List.filter Path.nonempty [a; b] ++ [n])%list).
  { change [a; b; n] with ([a; b] ++ [n])%list. rewrite List.filter_app.
    destruct n; [contradiction|]. reflexivity. }
  rewrite join_run, Hkept.
  - destruct (split_join_last (List.filter Path.nonempty [a; b]) n Hsep) as [front Hsplit].
    exact (basename_normalize _ _ _ Hsplit Hn).
  - rewrite Hkept. destruct (List.filter Path.nonempty [a; b]); discriminate.
Qed.

Lemma strip_common_suffix (a b up down : list string) :
  Path.strip_common a b = (up, down) -> exists front, b = (front ++ down)%list.
Proof.
  revert b. induction a as [|x a IH]; intros b.
  - cbn. intros [= _ <-]. exists []. reflexivity.
  - destruct b as [|y b]; cbn [Path.strip_common].
    + intros [= _ <-]. exists []. reflexivity.
    + destruct (String.eqb x y).
      * intros H. destruct (IH _ H) as [front ->]. exists (y :: front). reflexivity.
      * intros [= _ <-]. exists []. reflexivity.
Qed.

Lemma resolve_last (cwd path n : string) :
  Path.basename path = n -> proper n = true ->
  exists front, Path.resolve_segments cwd path = (front ++ [n])%list.
Proof.
  intros Hbase Hn. destruct (proper_spec n Hn) as [H0 _]. apply eqb_empty in H0.
  destruct (basename_split path n Hbase H0) as [front [back [Hsplit Hback]]].
  unfold Path.resolve_segments. rewrite Hsplit.
  destruct (Path.isAbsolute path).
  - change (front ++ n :: back)%list with (front ++ [n] ++ back)%list.
    rewrite app_assoc, normalize_segments_empty, normalize_segments_snoc by assumption.
    eauto.
  - change (front ++ n :: back)%list with (front ++ [n] ++ back)%list.
    rewrite !app_assoc, normalize_segments_empty, normalize_segments_snoc by assumption.
    eauto.
Qed.

Lemma ups_not_below (ups : list string) :
  Forall (fun seg => seg = "..") ups ->
  let rel := JsString.join "/" ups in
  negb (String.eqb rel "") && negb (String.eqb (hd "" (Path.split rel)) "..") = false.
Proof.
  intros Hups. destruct Hups as [|seg ups -> Hups]; [reflexivity|].
  cbv zeta. destruct ups as [|seg' ups]; [reflexivity|].
  change (JsString.join "/" (".." :: seg' :: ups))
    with (".." ++ "/" ++ JsString.join "/" (seg' :: ups)).
  rewrite split_app. cbn. apply andb_false_r.
Qed.

Lemma relative_basename (cwd dir path n : string) :
  below cwd dir path = true -> Path.basename path = n -> proper n = true ->
  Path.basename (Path.relative cwd dir path) = n.
Proof.
  intros Hbelow Hbase Hn. destruct (proper_spec n Hn) as [H0 [_ [_ Hsep]]].
  apply eqb_empty in H0.
  destruct (resolve_last cwd path n Hbase Hn) as [front Hresolve].
  unfold below in Hbelow. unfold Path.relative in *.
  destruct (Path.strip_common _ _) as [up down] eqn:Hstrip.
  destruct (strip_common_suffix _ _ _ _ Hstrip) as [common Hdown].
  destruct down as [|d down'] using rev_ind.
  - rewrite app_nil_r in Hbelow. cbv zeta in Hbelow.
    rewrite ups_not_below in Hbelow; [discriminate Hbelow|].
    clear. induction up; constructor; auto.
  - clear IHdown'. rewrite Hresolve, app_assoc in Hdown.
    apply app_inj_tail in Hdown. destruct Hdown as [_ <-].
    rewrite app_assoc.
    destruct (split_join_last (List.map (fun _ => "..") up ++ down') n Hsep)
      as [front' Hsplit].
    exact (basename_last _ _ _ Hsplit H0).
Qed.

Lemma no_sep_app (a b : string) : no_sep (a ++ b) = no_sep a && no_sep b.
Proof.
  induction a as [|c a IH]; [reflexivity|].
  rewrite append_cons. cbn [no_sep]. rewrite IH, andb_assoc. reflexivity.
Qed.

Lemma rename_proper (name : string) :
  JsString.array_includes [""; "."; ".."; "_dot_"; "_dot_."] name = false -> no_sep name = true ->
  proper name = true /\ proper (rename name) = true.
Proof.
  unfold JsString.array_includes. cbn [existsb].
  rewrite !orb_false_iff. intros [H0 [H1 [H2 [H3 [H4 _]]]]] Hsep.
  assert (Hname : proper name = true).
  { unfold proper, JsString.array_includes. cbn [existsb].
    rewrite H0, H1, H2, Hsep. reflexivity. }
  split; [exact Hname|]. unfold rename.
  destruct (JsString.startsWith name "_dot_") eqn:Hmarker; [|exact Hname].
  apply startsWith_split in Hmarker.
  set (rest := JsString.drop _ _) in *. clearbody rest. subst name.
  rewrite no_sep_app in Hsep. cbn in Hsep.
  unfold proper, JsString.array_includes. cbn [existsb].
  change ("." ++ rest) with (String "." rest).
  assert (Hr0 : rest <> "") by (intros ->; discriminate H3).
  assert (Hr1 : rest <> ".") by (intros ->; discriminate H4).
  destruct (String.eqb_spec (String "." rest) "") as [E|_]; [discriminate E|].
  destruct (String.eqb_spec (String "." rest) ".") as [E|_]; [congruence|].
  destruct (String.eqb_spec (String "." rest) "..") as [E|_]; [congruence|].
  cbn. exact Hsep.
Qed.

(** C3, amended (dot-marker rename).  For every file the template copy
    copies from below the template directory, whose source base name is a
    name (not empty, [.] or [..]) other than the bare marker [_dot_] and
    [_dot_.]: the base name at the destination is the source base name
    through the rename.  So a source base name [_dot_] followed by [rest]
    gives the base name [.] followed by [rest], which is left as it is,
    further markers included, and a source base name that does not start
    with the marker is kept. *)
Theorem dot_marker_rename (ext : externals) (inv : invocation) (targetPath : string)
    (fs : filesystem) (from to : string) :
  In (CopyFile from to) (snd (copy_template ext inv targetPath fs)) ->
  below (cwd inv) (template_root inv) from = true ->
  JsString.array_includes [""; "."; ".."; "_dot_"; "_dot_."] (Path.basename from) = false ->
  Path.basename to = rename (Path.basename from)
  /\ (forall rest, Path.basename from = "_dot_" ++ rest -> Path.basename to = "." ++ rest)
  /\ (JsString.startsWith (Path.basename from) "_dot_" = false ->
      Path.basename to = Path.basename from).
Proof.
  intros Hin Hbelow Hname.
  assert (Hto : Path.basename to = rename (Path.basename from)).
  { destruct (copy_template_events ext inv targetPath fs) as [n [Hev _]].
    rewrite Hev in Hin. destruct Hin as [Hin|Hin]; [discriminate Hin|].
    apply in_map_iff in Hin. destruct Hin as [[from' to'] [[= -> ->] Hjob]].
    apply in_firstn, template_jobs_sources in Hjob.
    destruct Hjob as [_ [_ [_ ->]]]. unfold destination_of.
    unfold template_root in Hbelow.
    destruct (rename_proper _ Hname (basename_no_sep from)) as [Hproper Hrenamed].
    rewrite (relative_basename _ _ _ _ Hbelow eq_refl Hproper).
    apply basename_join, Hrenamed. }
  split; [exact Hto|]. split.
  - intros rest Hrest. rewrite Hto, Hrest. unfold rename.
    rewrite (startsWith_app "_dot_" rest).
    rewrite (drop_app "_dot_" rest : JsString.drop 5 ("_dot_" ++ rest) = rest).
    reflexivity.
  - intros Hmarker. rewrite Hto. unfold rename. rewrite Hmarker. reflexivity.
Qed.

Lemma dot_marker_rename_witness :
  Path.basename "/home/dev/my-app/.gitignore"
  = rename (Path.basename "/opt/create-se2/templates/nextjs/_dot_gitignore")
  /\ (forall rest,
        Path.basename "/opt/create-se2/templates/nextjs/_dot_gitignore" = "_dot_" ++ rest ->
        Path.basename "/home/dev/my-app/.gitignore" = "." ++ rest)
  /\ (JsString.startsWith (Path.basename "/opt/create-se2/templates/nextjs/_dot_gitignore")
        "_dot_" = false ->
      Path.basename "/home/dev/my-app/.gitignore"
      = Path.basename "/opt/create-se2/templates/nextjs/_dot_gitignore").
Proof.
  apply (dot_marker_rename Sample.ext Sample.my_app "/home/dev/my-app" Sample.disk).
  - vm_compute. tauto.
  - vm_compute. reflexivity.
  - vm_compute. reflexivity.
Defined.

(** C3 as stated fails at the bare marker: the template file [sub/_dot_]
    is renamed to [.], which [path.join] takes for the directory itself, so
    the file is copied to [sub] in the target; the base name at the
    destination is [sub] and does not start with a dot. *)
Lemma dot_marker_rename_counterexample :
  exists fs',
    copy_template Sample.ext Sample.my_app "/home/dev/my-app" Sample.disk_marker
    = (Ok tt, fs',
       [Cpy "/opt/create-se2/templates/nextjs/**/*" "/home/dev/my-app";
        CopyFile "/opt/create-se2/templates/nextjs/sub/_dot_" "/home/dev/my-app/sub"])
    /\ fs' !! "/home/dev/my-app/sub" = Some (File "marker")
    /\ below "/home/dev" (template_root Sample.my_app)
         "/opt/create-se2/templates/nextjs/sub/_dot_" = true
    /\ Path.basename "/opt/create-se2/templates/nextjs/sub/_dot_" = "_dot_"
    /\ JsString.startsWith "_dot_" "_dot_" = true
    /\ Path.basename "/home/dev/my-app/sub" = "sub"
    /\ JsString.startsWith "sub" "." = false.
Proof.
  eexists. split; [vm_compute; reflexivity|].
  repeat split; vm_compute; reflexivity.
Qed.


(** ** The manifest *)

Lemma get_set_same (k : string) (x : json) (members : list (string * json)) :
  Json.get k (Json.set k x members) = Some x.
Proof.
  induction members as [|[k' x'] members IH]; cbn.
  - rewrite String.eqb_refl. reflexivity.
  - destruct (String.eqb k' k) eqn:E; cbn; rewrite E; [reflexivity | exact IH].
Qed.

Lemma get_set_other (k k' : string) (x : json) (members : list (string * json)) :
  k <> k' -> Json.get k' (Json.set k x members) = Json.get k' members.
Proof.
  intros Hne.
  induction members as [|[k0 x0] members IH]; cbn.
  - destruct (String.eqb_spec k k'); [contradiction | reflexivity].
  - destruct (String.eqb_spec k0 k) as [->|Hk0]; cbn.
    + destruct (String.eqb_spec k k'); [contradiction | reflexivity].
    + destruct (String.eqb k0 k'); [reflexivity | exact IH].
Qed.

Lemma set_keys (k : string) (x : json) (members : list (string * json)) :
  List.map fst (Json.set k x members) =
  match Json.get k members with
  | Some _ => List.map fst members
  | None => (List.map fst members ++ [k])%list
  end.
Proof.
  induction members as [|[k' x'] members IH]; cbn; [reflexivity|].
  destruct (String.eqb k' k) eqn:E; cbn; [reflexivity|].
  rewrite IH. destruct (Json.get k members); reflexivity.
Qed.

Lemma stringify_members (members : list (string * json)) :
  members <> [] ->
  Json.stringify (JObject members) 2 =
  "{" ++ Json.newline ++ "  "
  ++ JsString.join ("," ++ Json.newline ++ "  ")
       (List.map (fun m => Json.quote (fst m) ++ ": " ++ Json.serialize "  " "  " (snd m))
          members)
  ++ Json.newline ++ "}".
Proof.
  intros Hne. destruct members as [|m members]; [congruence|]. reflexivity.
Qed.

(** C4 (manifest patch).  When [package.json] under the target holds a JSON
    object, the step succeeds and replaces that one file by the object
    printed with [JSON.stringify(_, null, 2)], in which [name] is the project
    name, [version] is the string 0.1.0 whatever it was, every other key has
    the value it had, and the keys keep their order ([name] and [version]
    going last when they were missing).  Each member is printed on a line of
    its own behind two spaces.  Every other path of the filesystem is left as
    it was, and the write is the only effect. *)
Theorem manifest_patch (ext : externals) (projectPath targetPath : string)
    (fs : filesystem) (text : string) (members : list (string * json)) :
  fs !! Path.join [targetPath; "package.json"] = Some (File text) ->
  JSON_parse ext text = Some (JObject members) ->
  exists patched fs',
    patch_manifest ext projectPath targetPath fs
    = (Ok tt, fs', [WriteFile (Path.join [targetPath; "package.json"])])
    /\ fs' !! Path.join [targetPath; "package.json"]
       = Some (File (Json.stringify (JObject patched) 2))
    /\ (forall path, path <> Path.join [targetPath; "package.json"] ->
        fs' !! path = fs !! path)
    /\ Json.get "name" patched = Some (JString projectPath)
    /\ Json.get "version" patched = Some (JString "0.1.0")
    /\ (forall k, k <> "name" -> k <> "version" ->
        Json.get k patched = Json.get k members)
    /\ List.map fst patched
       = (List.map fst members
          ++ match Json.get "name" members with Some _ => [] | None => ["name"] end
          ++ match Json.get "version" members with
             | Some _ => []
             | None => ["version"]
             end)%list
    /\ Json.stringify (JObject patched) 2
       = "{" ++ Json.newline ++ "  "
         ++ JsString.join ("," ++ Json.newline ++ "  ")
              (List.map
                 (fun m => Json.quote (fst m) ++ ": " ++ Json.serialize "  " "  " (snd m))
                 patched)
         ++ Json.newline ++ "}".
Proof.
  intros Hfile Hparse.
  set (patched :=
         Json.set "version" (JString "0.1.0")
           (Json.set "name" (JString projectPath) members)).
  exists patched,
    (<[Path.join [targetPath; "package.json"]
       := File (Json.stringify (JObject patched) 2)]> fs).
  assert (Hname : Json.get "name" patched = Some (JString projectPath)).
  { unfold patched. rewrite get_set_other by discriminate. apply get_set_same. }
  repeat split.
  - unfold patch_manifest.
    rewrite bind_run. unfold Fs.readJson. rewrite Hfile, Hparse.
    repeat (rewrite bind_run; cbn [set_property]; rewrite ret_run).
    unfold Fs.writeFile. rewrite Hfile. reflexivity.
  - apply lookup_insert_eq.
  - intros other Hne. apply lookup_insert_ne. congruence.
  - exact Hname.
  - apply get_set_same.
  - intros k Hk1 Hk2. unfold patched.
    rewrite get_set_other by congruence. apply get_set_other. congruence.
  - unfold patched. rewrite !set_keys.
    rewrite get_set_other by discriminate.
    destruct (Json.get "name" members), (Json.get "version" members);
      rewrite ?app_nil_r, <- ?app_assoc; reflexivity.
  - apply stringify_members. intros E. rewrite E in Hname. discriminate.
Qed.

Lemma manifest_patch_witness :
  exists patched fs',
    patch_manifest Sample.ext "my-app" "/home/dev/my-app" Sample.disk_copied
    = (Ok tt, fs', [WriteFile "/home/dev/my-app/package.json"])
    /\ fs' !! "/home/dev/my-app/package.json"
       = Some (File (Json.stringify (JObject patched) 2))
    /\ Json.get "name" patched = Some (JString "my-app")
    /\ Json.get "version" patched = Some (JString "0.1.0")
    /\ Json.get "private" patched = Some (JBool true).
Proof.
  assert (Hfile : Sample.disk_copied !! Path.join ["/home/dev/my-app"; "package.json"]
                  = Some (File Sample.manifest_text)) by (vm_compute; reflexivity).
  assert (Hparse : JSON_parse Sample.ext Sample.manifest_text
                   = Some (JObject
                             [ ("name", JString "se-2"); ("version", JString "0.0.1");
                               ("private", JBool true);
                               ("scripts", JObject [("start", JString "next dev")]) ]))
    by (vm_compute; reflexivity).
  destruct (manifest_patch Sample.ext "my-app" "/home/dev/my-app" Sample.disk_copied
              _ _ Hfile Hparse)
    as (patched & fs' & Hrun & Hwritten & _ & Hname & Hversion & Hother & _).
  exists patched, fs'. repeat split; try assumption.
  rewrite Hother by discriminate. reflexivity.
Defined.

(** ** The checks before the copy *)

(** C5 (pre-copy atomicity).  A run that ends with exit code 1 has failed
    one of the three checks (invalid name, reserved name, target exists): it
    leaves the filesystem as it found it, and all it did was print and, at
    most, ask for the name, the last line printed being the message of the
    failed check.  In particular, when the target directory of the name is
    there already, the run ends with exit code 1 in that way: no copy is
    started, no file is written and no child process is run. *)
Theorem checks_before_writes (ext : externals) (inv : invocation) (fs : filesystem) :
  (forall fs' events,
     execute ext inv fs = (ExitCode 1, fs', events) ->
     fs' = fs /\ Forall interaction events
     /\ exists name message,
          project_name ext inv = Some name
          /\ events = (opening inv ++ [ConsoleLog ""; ConsoleLog message])%list
          /\ (message = invalid_name_message
              \/ message = reserved_name_message name
              \/ message = target_exists_message name))
  /\ (forall name,
        project_name ext inv = Some name ->
        is_Some (fs !! Path.join [cwd inv; name]) ->
        execute ext inv fs
        = (ExitCode 1, fs,
           (opening inv
            ++ [ConsoleLog "";
                ConsoleLog
                  (if negb (isValidProjectName ext name) then invalid_name_message
                   else if JsString.array_includes reservedPackageNames name
                        then reserved_name_message name
                        else target_exists_message name)])%list)).
Proof.
  split.
  - intros fs' events. rewrite execute_run, main_run.
    destruct (project_name ext inv) as [name|]; [|discriminate].
    rewrite create_run.
    assert (Hshape : forall message,
               Forall interaction (opening inv ++ [ConsoleLog ""; ConsoleLog message])).
    { intros message. apply Forall_app. split; [apply opening_interaction|].
      repeat constructor. }
    destruct (negb (isValidProjectName ext name)).
    { intros [= <- <-]. rewrite <- app_assoc. split; [reflexivity|]. split; [apply Hshape|].
      exists name, invalid_name_message. auto. }
    destruct (JsString.array_includes reservedPackageNames name).
    { intros [= <- <-]. rewrite <- app_assoc. split; [reflexivity|]. split; [apply Hshape|].
      exists name, (reserved_name_message name). auto. }
    destruct (bool_decide (is_Some (fs !! Path.join [cwd inv; name]))).
    { intros [= <- <-]. rewrite <- app_assoc. split; [reflexivity|]. split; [apply Hshape|].
      exists name, (target_exists_message name). auto. }
    pose proof (plain_scaffold ext inv name (Path.join [cwd inv; name]) fs) as Hplain.
    destruct (scaffold ext inv name (Path.join [cwd inv; name]) fs)
      as [[[a|[message|message]|code] fs1] ev1]; cbn in Hplain;
      try contradiction; discriminate.
  - intros name Hname Hthere. rewrite execute_run, main_run, Hname, create_run.
    rewrite (bool_decide_eq_true_2 _ Hthere).
    destruct (negb (isValidProjectName ext name));
      [|destruct (JsString.array_includes reservedPackageNames name)];
      rewrite <- app_assoc; reflexivity.
Qed.

Lemma checks_before_writes_witness :
  execute Sample.ext Sample.my_app Sample.disk_taken
  = (ExitCode 1, Sample.disk_taken,
     [ConsoleLog ""; ConsoleLog "🌈 Welcome to Scaffold-ETH 2!"; ConsoleLog "";
      ConsoleLog (target_exists_message "my-app")]).
Proof.
  assert (Hthere : is_Some (Sample.disk_taken !! Path.join [cwd Sample.my_app; "my-app"])).
  { exists Dir. vm_compute. reflexivity. }
  exact (proj2 (checks_before_writes Sample.ext Sample.my_app Sample.disk_taken)
           "my-app" eq_refl Hthere).
Defined.

(** C6 (no-name path).  When the name argument is missing, or empty once
    trimmed, the run reports no failure of validation: after the welcome it
    asks for the name.  When the user gives the prompt no accepted answer
    and aborts it, the process ends with exit code 0, the filesystem is as
    it was, and all the run did was print and ask. *)
Theorem no_name_prompts (ext : externals) (inv : invocation) (fs : filesystem) :
  project_directory inv = None
  \/ (exists raw, project_directory inv = Some raw /\ JsString.trim raw = "") ->
  (exists how fs' rest,
     execute ext inv fs
     = (how, fs',
        ([ConsoleLog ""; ConsoleLog "🌈 Welcome to Scaffold-ETH 2!"; ConsoleLog "";
          Prompt "What is the name of your project?" "my-se2-app"] ++ rest)%list))
  /\ (prompt_value (validate ext) (typed inv) = None ->
      execute ext inv fs
      = (ExitCode 0, fs,
         [ConsoleLog ""; ConsoleLog "🌈 Welcome to Scaffold-ETH 2!"; ConsoleLog "";
          Prompt "What is the name of your project?" "my-se2-app"; ConsoleLog ""])).
Proof.
  intros Hnone.
  assert (Hprompted : prompted inv = true
                      /\ project_name ext inv = prompt_value (validate ext) (typed inv)).
  { unfold prompted, project_name.
    destruct Hnone as [->|[raw [-> Hraw]]]; cbn; [|rewrite Hraw]; auto. }
  destruct Hprompted as [Hprompted Hname].
  assert (Hopening : opening inv
                     = [ConsoleLog ""; ConsoleLog "🌈 Welcome to Scaffold-ETH 2!";
                        ConsoleLog "";
                        Prompt "What is the name of your project?" "my-se2-app"]).
  { unfold opening. rewrite Hprompted. reflexivity. }
  split.
  - rewrite execute_run, main_run, Hopening.
    destruct (project_name ext inv) as [name|]; [|eauto].
    destruct (create ext inv name fs) as [[[a|[message|message]|code] fs'] events];
      rewrite <- ?app_assoc; eauto.
  - intros Hcancel. rewrite execute_run, main_run, Hname, Hcancel, Hopening.
    reflexivity.
Qed.

Lemma no_name_prompts_witness :
  execute Sample.ext Sample.blank_name Sample.disk
  = (ExitCode 0, Sample.disk,
     [ConsoleLog ""; ConsoleLog "🌈 Welcome to Scaffold-ETH 2!"; ConsoleLog "";
      Prompt "What is the name of your project?" "my-se2-app"; ConsoleLog ""]).
Proof.
  assert (Hblank : project_directory Sample.blank_name = None
                   \/ (exists raw, project_directory Sample.blank_name = Some raw
                                    /\ JsString.trim raw = "")).
  { right. exists "  ". split; reflexivity. }
  exact (proj2 (no_name_prompts Sample.ext Sample.blank_name Sample.disk Hblank) eq_refl).
Defined.

(** ** The package manager *)

(** C7 (package-manager flag priority).  When a flag is set the manager is
    read off the flags alone, [usePnpm] before [useYarn] before [useNpm]:
    whatever the user agent and the installed tools are, the choice is the
    same, the filesystem is left as it was and no probe is run.  Detection
    runs when no flag is set, and only then. *)
Theorem flag_priority (ext : externals) (inv : invocation) (fs : filesystem) :
  (usePnpm (opts inv) || useYarn (opts inv) || useNpm (opts inv) = true ->
   choose_packageManager ext inv fs =
   (Ok (if usePnpm (opts inv) then pnpm
        else if useYarn (opts inv) then yarn else npm), fs, []))
  /\ (usePnpm (opts inv) || useYarn (opts inv) || useNpm (opts inv) = false ->
      choose_packageManager ext inv fs =
      detectPackageManager ext (npm_config_user_agent inv) fs).
Proof.
  unfold choose_packageManager.
  destruct (usePnpm (opts inv)), (useYarn (opts inv)), (useNpm (opts inv));
    cbn [orb]; split; intros H; try discriminate H; reflexivity.
Qed.

Lemma flag_priority_witness :
  choose_packageManager Sample.ext_yarn Sample.pnpm_and_yarn Sample.disk
  = (Ok pnpm, Sample.disk, [])
  /\ choose_packageManager Sample.ext_yarn Sample.my_app Sample.disk
     = detectPackageManager Sample.ext_yarn (Some "npm/10.2.4 node/v20.11.0 linux x64")
         Sample.disk.
Proof.
  split.
  - exact (proj1 (flag_priority Sample.ext_yarn Sample.pnpm_and_yarn Sample.disk) eq_refl).
  - exact (proj2 (flag_priority Sample.ext_yarn Sample.my_app Sample.disk) eq_refl).
Defined.

Lemma from_user_agent_prefix (agent : string) :
  agent <> "" ->
  (JsString.startsWith agent "pnpm" = true -> from_user_agent (Some agent) = Some pnpm)
  /\ (JsString.startsWith agent "yarn" = true -> from_user_agent (Some agent) = Some yarn)
  /\ (JsString.startsWith agent "npm" = true -> from_user_agent (Some agent) = Some npm).
Proof.
  intros Hne. destruct agent as [|c agent]; [congruence|].
  repeat split; intros Hp; apply startsWith_split in Hp;
    set (rest := JsString.drop _ _) in Hp; clearbody rest;
    rewrite Hp; destruct rest; reflexivity.
Qed.

Lemma from_user_agent_none (userAgent : option string) :
  userAgent = None \/ userAgent = Some ""
  \/ (exists agent, userAgent = Some agent
       /\ JsString.startsWith agent "pnpm" = false
       /\ JsString.startsWith agent "yarn" = false
       /\ JsString.startsWith agent "npm" = false) ->
  from_user_agent userAgent = None.
Proof.
  intros [->|[->|[agent [-> [Hp [Hy Hn]]]]]]; try reflexivity.
  destruct agent as [|c agent]; [reflexivity|].
  cbn [from_user_agent]. rewrite Hp, Hy, Hn. reflexivity.
Qed.

Lemma detect_from_agent (ext : externals) (userAgent : option string)
    (manager : packageManager) (fs : filesystem) :
  from_user_agent userAgent = Some manager ->
  detectPackageManager ext userAgent fs = (Ok manager, fs, []).
Proof. intros H. unfold detectPackageManager, try_catch. rewrite H. reflexivity. Qed.

Lemma detect_by_probe (ext : externals) (userAgent : option string) (fs : filesystem) :
  from_user_agent userAgent = None ->
  detectPackageManager ext userAgent fs =
  let pnpm_probe := shell ext "pnpm --version" fs in
  if fst pnpm_probe then
    (Ok pnpm, snd pnpm_probe, [ExecSync "pnpm --version"])
  else
    let yarn_probe := shell ext "yarn --version" (snd pnpm_probe) in
    (Ok (if fst yarn_probe then yarn else npm), snd yarn_probe,
     [ExecSync "pnpm --version"; ExecSync "yarn --version"]).
Proof.
  intros H. unfold detectPackageManager, try_catch, execSync. rewrite H.
  rewrite !bind_run.
  destruct (shell ext "pnpm --version" fs) as [[|] fs1]; cbn [fst snd].
  - reflexivity.
  - rewrite !bind_run.
    destruct (shell ext "yarn --version" fs1) as [[|] fs2]; reflexivity.
Qed.

(** C8 (detector totality and fallback).  [detectPackageManager] always
    returns a manager and never throws.  A user agent that is set and starts
    with [pnpm], [yarn] or [npm] decides, without a probe; otherwise
    [pnpm --version] is run and, when it fails, [yarn --version]: the first
    that succeeds decides, and when the yarn probe throws too the answer is
    [npm]. *)
Theorem detectPackageManager_total (ext : externals) (userAgent : option string)
    (fs : filesystem) :
  (exists manager fs' events,
     detectPackageManager ext userAgent fs = (Ok manager, fs', events))
  /\ (forall agent,
        userAgent = Some agent -> agent <> "" ->
        (JsString.startsWith agent "pnpm" = true ->
         detectPackageManager ext userAgent fs = (Ok pnpm, fs, []))
        /\ (JsString.startsWith agent "yarn" = true ->
            detectPackageManager ext userAgent fs = (Ok yarn, fs, []))
        /\ (JsString.startsWith agent "npm" = true ->
            detectPackageManager ext userAgent fs = (Ok npm, fs, [])))
  /\ (userAgent = None \/ userAgent = Some ""
      \/ (exists agent, userAgent = Some agent
           /\ JsString.startsWith agent "pnpm" = false
           /\ JsString.startsWith agent "yarn" = false
           /\ JsString.startsWith agent "npm" = false) ->
      detectPackageManager ext userAgent fs =
      let pnpm_probe := shell ext "pnpm --version" fs in
      if fst pnpm_probe then
        (Ok pnpm, snd pnpm_probe, [ExecSync "pnpm --version"])
      else
        let yarn_probe := shell ext "yarn --version" (snd pnpm_probe) in
        (Ok (if fst yarn_probe then yarn else npm), snd yarn_probe,
         [ExecSync "pnpm --version"; ExecSync "yarn --version"])).
Proof.
  split; [|split].
  - destruct (from_user_agent userAgent) as [manager|] eqn:Hagent.
    + exists manager, fs, []. apply detect_from_agent, Hagent.
    + rewrite (detect_by_probe _ _ _ Hagent). cbn zeta.
      destruct (fst (shell ext "pnpm --version" fs)); eauto.
  - intros agent -> Hne.
    destruct (from_user_agent_prefix agent Hne) as [Hp [Hy Hn]].
    repeat split; intros H; apply detect_from_agent; auto.
  - intros H. apply detect_by_probe, from_user_agent_none, H.
Qed.

Lemma detectPackageManager_total_witness :
  detectPackageManager Sample.ext_bare (Some "yarn/1.22.19 npm/? node/v20.11.0")
    Sample.disk = (Ok yarn, Sample.disk, [])
  /\ detectPackageManager Sample.ext_yarn (Some "bun/1.0.0") Sample.disk
     = (Ok yarn, Sample.disk, [ExecSync "pnpm --version"; ExecSync "yarn --version"])
  /\ detectPackageManager Sample.ext_bare None Sample.disk
     = (Ok npm, Sample.disk, [ExecSync "pnpm --version"; ExecSync "yarn --version"]).
Proof.
  split; [|split].
  - apply (proj1 (proj2 (detectPackageManager_total Sample.ext_bare
                           (Some "yarn/1.22.19 npm/? node/v20.11.0") Sample.disk))
             "yarn/1.22.19 npm/? node/v20.11.0" eq_refl).
    + discriminate.
    + reflexivity.
  - apply (proj2 (proj2 (detectPackageManager_total Sample.ext_yarn
                           (Some "bun/1.0.0") Sample.disk))).
    right. right. exists "bun/1.0.0". repeat split; reflexivity.
  - apply (proj2 (proj2 (detectPackageManager_total Sample.ext_bare None Sample.disk))).
    left. reflexivity.
Defined.

(** ** The git commands *)

Lemma git_commands_none (events : list event) :
  Forall no_git events -> git_commands events = [].
Proof.
  induction 1 as [|e events He _ IH]; [reflexivity|].
  unfold git_commands in *. cbn. rewrite He. exact IH.
Qed.

Lemma git_commands_app (ev1 ev2 : list event) :
  git_commands (ev1 ++ ev2) = (git_commands ev1 ++ git_commands ev2)%list.
Proof. apply List.filter_app. Qed.

(** A step that runs no git command passes the question on to what
    follows it. *)
Lemma git_commands_after {A B} (m : M A) (k : A -> M B) (fs : filesystem) :
  emits no_git m ->
  git_commands (snd ((m ≫= k) fs)) =
  match m fs with
  | (Ok a, fs1, _) => git_commands (snd (k a fs1))
  | _ => []
  end.
Proof.
  intros Hm. rewrite bind_run. specialize (Hm fs).
  destruct (m fs) as [[[a|e|code] fs1] ev1]; cbn [snd] in *.
  - destruct (k a fs1) as [[r fs2] ev2]. cbn [snd].
    rewrite git_commands_app, (git_commands_none _ Hm). reflexivity.
  - apply git_commands_none, Hm.
  - apply git_commands_none, Hm.
Qed.

Lemma git_commands_before {A B} (m : M A) (k : A -> M B) (fs : filesystem) :
  (forall a, emits no_git (k a)) ->
  git_commands (snd ((m ≫= k) fs)) = git_commands (snd (m fs)).
Proof.
  intros Hk. rewrite bind_run.
  destruct (m fs) as [[[a|e|code] fs1] ev1]; cbn [snd]; try reflexivity.
  specialize (Hk a fs1). destruct (k a fs1) as [[r fs2] ev2]. cbn [snd] in *.
  rewrite git_commands_app, (git_commands_none _ Hk). apply app_nil_r.
Qed.

Lemma initialize_git_run (ext : externals) (inv : invocation) (targetPath : string)
    (fs : filesystem) :
  initialize_git ext inv targetPath fs =
  if skipGit (opts inv) then (Ok tt, fs, [])
  else
    let init := child_process ext "git" ["init"] targetPath fs in
    let add := child_process ext "git" ["add"; "."] targetPath (snd init) in
    let commit :=
      child_process ext "git"
        ["commit"; "--no-verify"; "--message"; "Initial commit from create-se2"]
        targetPath (snd add) in
    if negb (fst init) then
      (Throw (Error "git"), snd init,
       [ConsoleLog "📚 Initializing git repository"; Execa "git" ["init"] targetPath])
    else if negb (fst add) then
      (Throw (Error "git"), snd add,
       [ConsoleLog "📚 Initializing git repository"; Execa "git" ["init"] targetPath;
        Execa "git" ["add"; "."] targetPath])
    else
      (if fst commit then Ok tt else Throw (Error "git"), snd commit,
       [ConsoleLog "📚 Initializing git repository"; Execa "git" ["init"] targetPath;
        Execa "git" ["add"; "."] targetPath;
        Execa "git"
          ["commit"; "--no-verify"; "--message"; "Initial commit from create-se2"]
          targetPath]).
Proof.
  unfold initialize_git, execa, git_init, git_add, git_commit.
  destruct (skipGit (opts inv)); [reflexivity|].
  run_monad. cbn [negb].
  destruct (child_process ext "git" ["init"] targetPath fs) as [[|] fs1];
    cbn [fst snd negb]; [|reflexivity].
  destruct (child_process ext "git" ["add"; "."] targetPath fs1) as [[|] fs2];
    cbn [fst snd negb]; [|reflexivity].
  destruct (child_process ext "git" _ targetPath fs2) as [[|] fs3]; reflexivity.
Qed.

Ltac no_git_steps :=
  repeat first
    [ apply emits_log; reflexivity
    | apply emits_ret
    | apply emits_cpy; [reflexivity | intros; reflexivity]
    | apply emits_readJson
    | apply emits_set_property
    | apply emits_writeFile; reflexivity
    | apply emits_detectPackageManager; reflexivity
    | apply emits_bind; [|intros ?]
    | match goal with |- emits _ (if ?b then _ else _) => destruct b end ].

Lemma no_git_copy_template (ext : externals) (inv : invocation) (targetPath : string) :
  emits no_git (copy_template ext inv targetPath).
Proof. unfold copy_template. no_git_steps. Qed.

Lemma no_git_patch_manifest (ext : externals) (projectPath targetPath : string) :
  emits no_git (patch_manifest ext projectPath targetPath).
Proof. unfold patch_manifest. no_git_steps. Qed.

Lemma no_git_choose (ext : externals) (inv : invocation) :
  emits no_git (choose_packageManager ext inv).
Proof. unfold choose_packageManager. no_git_steps. Qed.

Lemma no_git_install (ext : externals) (manager : packageManager) (targetPath : string) :
  emits no_git (execa ext (manager_name manager) ["install"] targetPath).
Proof. apply emits_execa. destruct manager; reflexivity. Qed.

(** The git commands of the whole of [scaffold] are those of its git step. *)
Lemma scaffold_git_commands (ext : externals) (inv : invocation)
    (projectPath targetPath : string) (fs : filesystem) :
  git_commands (snd (scaffold ext inv projectPath targetPath fs)) = []
  \/ exists fs1,
       git_commands (snd (scaffold ext inv projectPath targetPath fs))
       = git_commands (snd (initialize_git ext inv targetPath fs1)).
Proof.
  unfold scaffold.
  rewrite git_commands_after by (apply emits_log; reflexivity). rewrite log_run.
  rewrite git_commands_after by apply no_git_copy_template.
  destruct (copy_template ext inv targetPath fs) as [[[[]|e|code] fs1] ev1]; auto.
  rewrite git_commands_after by apply no_git_patch_manifest.
  destruct (patch_manifest ext projectPath targetPath fs1) as [[[[]|e|code] fs2] ev2]; auto.
  rewrite git_commands_after by apply no_git_choose.
  destruct (choose_packageManager ext inv fs2) as [[[manager|e|code] fs3] ev3]; auto.
  rewrite git_commands_after by (apply emits_log; reflexivity). rewrite log_run.
  rewrite git_commands_after by apply no_git_install.
  destruct (execa ext (manager_name manager) ["install"] targetPath fs3)
    as [[[[]|e|code] fs4] ev4]; auto.
  rewrite git_commands_before by (intros; no_git_steps).
  right. exists fs4. reflexivity.
Qed.

Lemma opening_no_git (inv : invocation) : git_commands (opening inv) = [].
Proof. unfold opening. destruct (prompted inv); reflexivity. Qed.

Lemma execute_git_commands (ext : externals) (inv : invocation) (fs : filesystem) :
  git_commands (snd (execute ext inv fs)) = []
  \/ exists name,
       project_name ext inv = Some name
       /\ git_commands (snd (execute ext inv fs))
          = git_commands (snd (scaffold ext inv name (Path.join [cwd inv; name]) fs)).
Proof.
  rewrite execute_run, main_run.
  destruct (project_name ext inv) as [name|].
  - rewrite create_run.
    destruct (negb (isValidProjectName ext name)).
    { left. cbn [snd]. rewrite !git_commands_app, opening_no_git. reflexivity. }
    destruct (JsString.array_includes reservedPackageNames name).
    { left. cbn [snd]. rewrite !git_commands_app, opening_no_git. reflexivity. }
    destruct (bool_decide (is_Some (fs !! Path.join [cwd inv; name]))).
    { left. cbn [snd]. rewrite !git_commands_app, opening_no_git. reflexivity. }
    right. exists name. split; [reflexivity|].
    destruct (scaffold ext inv name (Path.join [cwd inv; name]) fs)
      as [[[a|[message|message]|code] fs1] ev1]; cbn [snd];
      rewrite ?git_commands_app, opening_no_git; cbn [app];
      try reflexivity.
    unfold git_commands. cbn. apply app_nil_r.
  - left. cbn [snd]. rewrite git_commands_app, opening_no_git. reflexivity.
Qed.

(** C9 (git initialization sequence).  The git step does nothing when
    [skipGit] is set.  Otherwise it runs [git init], then [git add .], then
    [git commit --no-verify --message "Initial commit from create-se2"], all
    in the target directory, each on the filesystem the one before it left
    and only when that one exited with code 0; the first that fails makes the
    step throw an [Error], with the filesystem as the failed command left it.
    In a whole run the git commands are, in order, the first [n] of these
    three, none when [skipGit] is set; and an [Error] that leaves the body of
    [run] leaves the script uncaught. *)
Theorem git_sequence (ext : externals) (inv : invocation) (targetPath : string)
    (fs : filesystem) :
  initialize_git ext inv targetPath fs
  = (if skipGit (opts inv) then (Ok tt, fs, [])
     else
       let init := child_process ext "git" ["init"] targetPath fs in
       let add := child_process ext "git" ["add"; "."] targetPath (snd init) in
       let commit :=
         child_process ext "git"
           ["commit"; "--no-verify"; "--message"; "Initial commit from create-se2"]
           targetPath (snd add) in
       if negb (fst init) then
         (Throw (Error "git"), snd init,
          [ConsoleLog "📚 Initializing git repository"; Execa "git" ["init"] targetPath])
       else if negb (fst add) then
         (Throw (Error "git"), snd add,
          [ConsoleLog "📚 Initializing git repository"; Execa "git" ["init"] targetPath;
           Execa "git" ["add"; "."] targetPath])
       else
         (if fst commit then Ok tt else Throw (Error "git"), snd commit,
          [ConsoleLog "📚 Initializing git repository"; Execa "git" ["init"] targetPath;
           Execa "git" ["add"; "."] targetPath;
           Execa "git"
             ["commit"; "--no-verify"; "--message"; "Initial commit from create-se2"]
             targetPath]))
  /\ (exists n dir,
        git_commands (snd (execute ext inv fs))
        = firstn n
            [Execa "git" ["init"] dir;
             Execa "git" ["add"; "."] dir;
             Execa "git"
               ["commit"; "--no-verify"; "--message"; "Initial commit from create-se2"]
               dir]
        /\ (skipGit (opts inv) = true -> n = 0)
        /\ (forall name, project_name ext inv = Some name ->
            dir = Path.join [cwd inv; name]))
  /\ (forall message fs' events,
        main ext inv fs = (Throw (Error message), fs', events) ->
        execute ext inv fs = (Uncaught (Error message), fs', events)).
Proof.
  split; [apply initialize_git_run|]. split.
  - destruct (execute_git_commands ext inv fs) as [Hnone|[name [Hname Hgit]]].
    + exists 0, (match project_name ext inv with
                 | Some name => Path.join [cwd inv; name]
                 | None => ""
                 end).
      split; [exact Hnone|]. split; [reflexivity|].
      intros name ->. reflexivity.
    + assert (Hdir : forall name', project_name ext inv = Some name' ->
                     Path.join [cwd inv; name] = Path.join [cwd inv; name']).
      { intros name' H. rewrite Hname in H. injection H as <-. reflexivity. }
      rewrite Hgit.
      destruct (scaffold_git_commands ext inv name (Path.join [cwd inv; name]) fs)
        as [->|[fs1 ->]].
      { exists 0, (Path.join [cwd inv; name]). auto. }
      rewrite initialize_git_run.
      destruct (skipGit (opts inv)).
      { exists 0, (Path.join [cwd inv; name]). auto. }
      cbv zeta.
      destruct (fst (child_process ext "git" ["init"] (Path.join [cwd inv; name]) fs1)).
      2:{ exists 1, (Path.join [cwd inv; name]).
          split; [reflexivity|]. split; [discriminate | exact Hdir]. }
      destruct (fst (child_process ext "git" ["add"; "."] _ _)).
      2:{ exists 2, (Path.join [cwd inv; name]).
          split; [reflexivity|]. split; [discriminate | exact Hdir]. }
      exists 3, (Path.join [cwd inv; name]).
      split; [reflexivity|]. split; [discriminate | exact Hdir].
  - intros message fs' events H. rewrite execute_run, H. reflexivity.
Qed.

Lemma git_sequence_witness :
  initialize_git Sample.ext_git_add_fails Sample.my_app "/home/dev/my-app" Sample.disk
  = (Throw (Error "git"), Sample.disk,
     [ConsoleLog "📚 Initializing git repository";
      Execa "git" ["init"] "/home/dev/my-app";
      Execa "git" ["add"; "."] "/home/dev/my-app"])
  /\ initialize_git Sample.ext (Sample.named "my-app" Sample.pnpm_skip_git)
       "/home/dev/my-app" Sample.disk
     = (Ok tt, Sample.disk, []).
Proof.
  split.
  - exact (proj1 (git_sequence Sample.ext_git_add_fails Sample.my_app "/home/dev/my-app"
                    Sample.disk)).
  - exact (proj1 (git_sequence Sample.ext (Sample.named "my-app" Sample.pnpm_skip_git)
                    "/home/dev/my-app" Sample.disk)).
Defined.

(** ** The template of a run *)

Ltac after_copy_steps :=
  repeat first
    [ apply emits_log; exact I
    | apply emits_ret
    | apply emits_readJson
    | apply emits_set_property
    | apply emits_writeFile; exact I
    | apply emits_execa; exact I
    | apply emits_detectPackageManager; exact I
    | apply emits_bind; [|intros ?]
    | match goal with |- emits _ (if ?b then _ else _) => destruct b end ].

Ltac all_from_template :=
  repeat first
    [ assumption | exact I | apply Forall_app; split | apply Forall_cons_2
    | apply Forall_nil_2 ].

Lemma after_copy_from_template (ext : externals) (inv : invocation) (fs : filesystem)
    (events : list event) :
  Forall after_copy events -> Forall (from_template ext inv fs) events.
Proof.
  intros Hall. eapply Forall_impl; [exact Hall|].
  intros [] H; try exact I; destruct H.
Qed.

Lemma interaction_from_template (ext : externals) (inv : invocation) (fs : filesystem)
    (events : list event) :
  Forall interaction events -> Forall (from_template ext inv fs) events.
Proof.
  intros Hall. eapply Forall_impl; [exact Hall|].
  intros [] H; try exact I; destruct H.
Qed.

Lemma scaffold_from_template (ext : externals) (inv : invocation)
    (projectPath targetPath : string) (fs : filesystem) :
  Forall (from_template ext inv fs) (snd (scaffold ext inv projectPath targetPath fs)).
Proof.
  unfold scaffold. rewrite bind_run, log_run.
  match goal with
  | |- context [(copy_template ext inv targetPath ≫= ?k) fs] =>
      destruct (bind_split after_copy (copy_template ext inv targetPath) k fs)
        as [rest [Hev Hrest]];
      [ intros _; unfold patch_manifest, choose_packageManager, initialize_git;
        after_copy_steps
      | destruct ((copy_template ext inv targetPath ≫= k) fs) as [[r fs1] ev1] ]
  end.
  cbn [snd] in *. subst ev1.
  constructor; [exact I|].
  apply Forall_app. split; [|apply after_copy_from_template, Hrest].
  destruct (copy_template_events ext inv targetPath fs) as [n [-> _]].
  constructor; [reflexivity|].
  apply List.Forall_forall. intros e He.
  apply in_map_iff in He. destruct He as [[from to] [<- Hjob]].
  apply in_firstn, template_jobs_sources in Hjob. cbn. tauto.
Qed.

(** C10 (fixed template choice).  In every run, whatever the name, the
    options, the user agent, the answers to the prompt and the filesystem
    are, a call of [cpy] has for its source the pattern [**/*] under
    [templates/nextjs] beside the directory of the running script, and every
    file copied is one that this pattern matches. *)
Theorem fixed_template (ext : externals) (inv : invocation) (fs : filesystem) :
  Forall
    (fun e =>
       match e with
       | Cpy source _ =>
           source
           = Path.join
               [Path.join [Path.join [__dirname inv; ".."; "templates"]; "nextjs"];
                "**"; "*"]
       | CopyFile from _ =>
           In from
             (glob ext
                (Path.join
                   [Path.join [Path.join [__dirname inv; ".."; "templates"]; "nextjs"];
                    "**"; "*"]) fs)
       | _ => True
       end)
    (snd (execute ext inv fs)).
Proof.
  change (Forall (from_template ext inv fs) (snd (execute ext inv fs))).
  assert (Hopening : Forall (from_template ext inv fs) (opening inv)).
  { apply interaction_from_template, opening_interaction. }
  assert (Hlog : forall line, from_template ext inv fs (ConsoleLog line)).
  { intros line. exact I. }
  rewrite execute_run, main_run.
  destruct (project_name ext inv) as [name|].
  - rewrite create_run.
    destruct (negb (isValidProjectName ext name)).
    { cbn [snd]. all_from_template. }
    destruct (JsString.array_includes reservedPackageNames name).
    { cbn [snd]. all_from_template. }
    destruct (bool_decide (is_Some (fs !! Path.join [cwd inv; name]))).
    { cbn [snd]. all_from_template. }
    pose proof (scaffold_from_template ext inv name (Path.join [cwd inv; name]) fs)
      as Hscaffold.
    destruct (scaffold ext inv name (Path.join [cwd inv; name]) fs)
      as [[[a|[message|message]|code] fs1] ev1]; cbn [snd] in *;
      all_from_template.
  - cbn [snd]. all_from_template.
Qed.

(** ** Whole runs on the sample world *)

(** A reserved name and an invalid name end the run with exit code 1 before
    anything is written. *)
Example reserved_name_run :
  execute Sample.ext (Sample.named "ethers" Sample.no_flags) Sample.disk
  = (ExitCode 1, Sample.disk,
     [ConsoleLog ""; ConsoleLog "🌈 Welcome to Scaffold-ETH 2!"; ConsoleLog "";
      ConsoleLog (reserved_name_message "ethers")]).
Proof. vm_compute. reflexivity. Qed.

Example invalid_name_run :
  execute Sample.ext (Sample.named "My App" Sample.no_flags) Sample.disk
  = (ExitCode 1, Sample.disk,
     [ConsoleLog ""; ConsoleLog "🌈 Welcome to Scaffold-ETH 2!"; ConsoleLog "";
      ConsoleLog invalid_name_message]).
Proof. vm_compute. reflexivity. Qed.

(** A whole run with [--use-pnpm --skip-git]: the copy leaves out
    [node_modules] and [CHANGELOG.md], pnpm installs, git is not run. *)
Example pnpm_skip_git_run :
  let '(how, fs', events) :=
    execute Sample.ext (Sample.named "my-app" Sample.pnpm_skip_git) Sample.disk in
  how = ExitCode 0
  /\ events
     = [ConsoleLog ""; ConsoleLog "🌈 Welcome to Scaffold-ETH 2!"; ConsoleLog "";
        ConsoleLog "🚀 Creating a new Scaffold-ETH 2 app in /home/dev/my-app";
        Cpy "/opt/create-se2/templates/nextjs/**/*" "/home/dev/my-app";
        CopyFile "/opt/create-se2/templates/nextjs/_dot_gitignore"
          "/home/dev/my-app/.gitignore";
        CopyFile "/opt/create-se2/templates/nextjs/pages/index.tsx"
          "/home/dev/my-app/pages/index.tsx";
        CopyFile "/opt/create-se2/templates/nextjs/package.json"
          "/home/dev/my-app/package.json";
        WriteFile "/home/dev/my-app/package.json";
        ConsoleLog "📦 Installing dependencies with pnpm. This could take a while.";
        Execa "pnpm" ["install"] "/home/dev/my-app";
        ConsoleLog "🌈 Done! Thanks for using Scaffold-ETH 2 🙏";
        ConsoleLog "";
        ConsoleLog "👉 To get started, run cd my-app and then pnpm start";
        ConsoleLog ""]
  /\ fs' !! "/home/dev/my-app/.gitignore" = Some (File "node_modules")
  /\ fs' !! "/home/dev/my-app/pages" = Some Dir
  /\ fs' !! "/home/dev/my-app/CHANGELOG.md" = None
  /\ fs' !! "/home/dev/my-app/package.json"
     = Some (File (Json.stringify
                     (JObject [ ("name", JString "my-app"); ("version", JString "0.1.0");
                                ("private", JBool true);
                                ("scripts", JObject [("start", JString "next dev")]) ])
                     2)).
Proof. vm_compute. repeat split; reflexivity. Qed.

(** * Further properties of the script *)

(** ** The steps of [scaffold], one after the other *)

Lemma scaffold_run (ext : externals) (inv : invocation) (projectPath targetPath : string)
    (fs : filesystem) :
  scaffold ext inv projectPath targetPath fs =
  match copy_template ext inv targetPath fs with
  | (Ok _, fs1, ev1) =>
      match patch_manifest ext projectPath targetPath fs1 with
      | (Ok _, fs2, ev2) =>
          match choose_packageManager ext inv fs2 with
          | (Ok manager, fs3, ev3) =>
              match execa ext (manager_name manager) ["install"] targetPath fs3 with
              | (Ok _, fs4, ev4) =>
                  match initialize_git ext inv targetPath fs4 with
                  | (Ok _, fs5, ev5) =>
                      (Ok tt, fs5,
                       ConsoleLog (creating_line targetPath)
                       :: ev1 ++ ev2 ++ ev3
                       ++ ConsoleLog (installing_line manager)
                       :: ev4 ++ ev5
                       ++ [ConsoleLog done_line; ConsoleLog "";
                           ConsoleLog (get_started_line projectPath manager);
                           ConsoleLog ""])
                  | (Throw e, fs5, ev5) =>
                      (Throw e, fs5,
                       ConsoleLog (creating_line targetPath)
                       :: ev1 ++ ev2 ++ ev3
                       ++ ConsoleLog (installing_line manager) :: ev4 ++ ev5)
                  | (Exited code, fs5, ev5) =>
                      (Exited code, fs5,
                       ConsoleLog (creating_line targetPath)
                       :: ev1 ++ ev2 ++ ev3
                       ++ ConsoleLog (installing_line manager) :: ev4 ++ ev5)
                  end
              | (Throw e, fs4, ev4) =>
                  (Throw e, fs4,
                   ConsoleLog (creating_line targetPath)
                   :: ev1 ++ ev2 ++ ev3 ++ ConsoleLog (installing_line manager) :: ev4)
              | (Exited code, fs4, ev4) =>
                  (Exited code, fs4,
                   ConsoleLog (creating_line targetPath)
                   :: ev1 ++ ev2 ++ ev3 ++ ConsoleLog (installing_line manager) :: ev4)
              end
          | (Throw e, fs3, ev3) =>
              (Throw e, fs3, ConsoleLog (creating_line targetPath) :: ev1 ++ ev2 ++ ev3)
          | (Exited code, fs3, ev3) =>
              (Exited code, fs3, ConsoleLog (creating_line targetPath) :: ev1 ++ ev2 ++ ev3)
          end
      | (Throw e, fs2, ev2) =>
          (Throw e, fs2, ConsoleLog (creating_line targetPath) :: ev1 ++ ev2)
      | (Exited code, fs2, ev2) =>
          (Exited code, fs2, ConsoleLog (creating_line targetPath) :: ev1 ++ ev2)
      end
  | (Throw e, fs1, ev1) => (Throw e, fs1, ConsoleLog (creating_line targetPath) :: ev1)
  | (Exited code, fs1, ev1) =>
      (Exited code, fs1, ConsoleLog (creating_line targetPath) :: ev1)
  end.
Proof.
  unfold scaffold. run_monad.
  destruct (copy_template ext inv targetPath fs) as [[[[]|e|code] fs1] ev1];
    try reflexivity.
  destruct (patch_manifest ext projectPath targetPath fs1) as [[[[]|e|code] fs2] ev2];
    try reflexivity.
  destruct (choose_packageManager ext inv fs2) as [[[manager|e|code] fs3] ev3];
    try reflexivity.
  destruct (execa ext (manager_name manager) ["install"] targetPath fs3)
    as [[[[]|e|code] fs4] ev4]; try reflexivity.
  destruct (initialize_git ext inv targetPath fs4) as [[[[]|e|code] fs5] ev5];
    reflexivity.
Qed.

(** The manifest step, case by case. *)
Lemma patch_manifest_run (ext : externals) (projectPath targetPath : string)
    (fs : filesystem) :
  patch_manifest ext projectPath targetPath fs =
  match fs !! Path.join [targetPath; "package.json"] with
  | Some (File text) =>
      match JSON_parse ext text with
      | Some (JObject members) =>
          (Ok tt,
           <[Path.join [targetPath; "package.json"]
             := File (Json.stringify
                        (JObject (Json.set "version" (JString "0.1.0")
                                    (Json.set "name" (JString projectPath) members))) 2)]> fs,
           [WriteFile (Path.join [targetPath; "package.json"])])
      | Some (JArray items) =>
          (Ok tt,
           <[Path.join [targetPath; "package.json"]
             := File (Json.stringify (JArray items) 2)]> fs,
           [WriteFile (Path.join [targetPath; "package.json"])])
      | Some _ => (Throw (Error "TypeError"), fs, [])
      | None => (Throw (Error "SyntaxError"), fs, [])
      end
  | Some Dir => (Throw (Error "EISDIR"), fs, [])
  | None => (Throw (Error "ENOENT"), fs, [])
  end.
Proof.
  unfold patch_manifest, Fs.readJson, Fs.writeFile. run_monad.
  destruct (fs !! Path.join [targetPath; "package.json"]) as [[text|]|] eqn:Hfile;
    try reflexivity.
  destruct (JSON_parse ext text) as [[]|]; try reflexivity;
    repeat (progress (cbn [set_property]; run_monad)); rewrite ?Hfile; reflexivity.
Qed.

Lemma patch_manifest_events (ext : externals) (projectPath targetPath : string)
    (fs fs' : filesystem) (events : list event) :
  patch_manifest ext projectPath targetPath fs = (Ok tt, fs', events) ->
  events = [WriteFile (Path.join [targetPath; "package.json"])].
Proof.
  rewrite patch_manifest_run.
  destruct (fs !! Path.join [targetPath; "package.json"]) as [[text|]|];
    try discriminate.
  destruct (JSON_parse ext text) as [[]|]; try discriminate; intros [= _ <-]; reflexivity.
Qed.

Lemma plain_patch_manifest (ext : externals) (projectPath targetPath : string) :
  plain (patch_manifest ext projectPath targetPath).
Proof.
  unfold patch_manifest.
  repeat first
    [ apply plain_ret | apply plain_readJson | apply plain_set_property
    | apply plain_writeFile | apply plain_bind; [|intros ?] ].
Qed.

(** The choice of the manager never fails; the probes it runs. *)
Lemma choose_packageManager_run (ext : externals) (inv : invocation) (fs : filesystem) :
  exists manager fs' probes,
    choose_packageManager ext inv fs = (Ok manager, fs', probes)
    /\ (probes = [] \/ probes = [ExecSync "pnpm --version"]
        \/ probes = [ExecSync "pnpm --version"; ExecSync "yarn --version"])
    /\ (usePnpm (opts inv) || useYarn (opts inv) || useNpm (opts inv) = true ->
        probes = []
        /\ manager = (if usePnpm (opts inv) then pnpm
                      else if useYarn (opts inv) then yarn else npm)).
Proof.
  unfold choose_packageManager.
  destruct (usePnpm (opts inv)); [exists pnpm, fs, []; auto|].
  destruct (useYarn (opts inv)); [exists yarn, fs, []; auto|].
  destruct (useNpm (opts inv)); [exists npm, fs, []; auto|].
  cbn [orb].
  destruct (from_user_agent (npm_config_user_agent inv)) as [manager|] eqn:Hagent.
  - rewrite (detect_from_agent _ _ _ _ Hagent). exists manager, fs, [].
    split; [reflexivity|]. split; [auto | discriminate].
  - rewrite (detect_by_probe _ _ _ Hagent). cbv zeta.
    destruct (fst (shell ext "pnpm --version" fs)).
    + eexists _, _, _. split; [reflexivity|]. split; [auto | discriminate].
    + eexists _, _, _. split; [reflexivity|]. split; [auto | discriminate].
Qed.

Lemma execa_events (ext : externals) (file : string) (args : list string) (dir : string)
    (fs fs' : filesystem) (events : list event) :
  execa ext file args dir fs = (Ok tt, fs', events) -> events = [Execa file args dir].
Proof.
  unfold execa. destruct (child_process ext file args dir fs) as [[|] fs1];
    [intros [= _ <-]; reflexivity | discriminate].
Qed.

Lemma initialize_git_events (ext : externals) (inv : invocation) (targetPath : string)
    (fs fs' : filesystem) (events : list event) :
  initialize_git ext inv targetPath fs = (Ok tt, fs', events) ->
  events = git_events inv targetPath.
Proof.
  rewrite initialize_git_run. unfold git_events.
  destruct (skipGit (opts inv)); [intros [= _ <-]; reflexivity|].
  cbv zeta.
  destruct (negb (fst (child_process ext "git" ["init"] targetPath fs)));
    [discriminate|].
  destruct (negb (fst (child_process ext "git" ["add"; "."] targetPath _)));
    [discriminate|].
  destruct (fst (child_process ext "git" _ targetPath _)); [|discriminate].
  intros [= _ <-]. reflexivity.
Qed.

(** What a [scaffold] that succeeds has done. *)
Lemma scaffold_ok_events (ext : externals) (inv : invocation) (name target : string)
    (fs fs' : filesystem) (events : list event) :
  scaffold ext inv name target fs = (Ok tt, fs', events) ->
  exists manager probes,
    events
    = ([ConsoleLog (creating_line target); Cpy (template_pattern inv) target]
       ++ List.map copy_event (template_jobs ext inv target fs)
       ++ [WriteFile (Path.join [target; "package.json"])]
       ++ probes
       ++ [ConsoleLog (installing_line manager);
           Execa (manager_name manager) ["install"] target]
       ++ git_events inv target
       ++ [ConsoleLog done_line; ConsoleLog "";
           ConsoleLog (get_started_line name manager); ConsoleLog ""])%list
    /\ (probes = [] \/ probes = [ExecSync "pnpm --version"]
        \/ probes = [ExecSync "pnpm --version"; ExecSync "yarn --version"])
    /\ (usePnpm (opts inv) || useYarn (opts inv) || useNpm (opts inv) = true ->
        probes = []
        /\ manager = (if usePnpm (opts inv) then pnpm
                      else if useYarn (opts inv) then yarn else npm)).
Proof.
  intros Hscaffold. rewrite scaffold_run in Hscaffold.
  destruct (copy_template_events ext inv target fs) as [n [Hcopy Hall]].
  destruct (copy_template ext inv target fs) as [[[[]|e|code] fs1] ev1];
    try discriminate Hscaffold.
  cbn [fst snd] in Hcopy, Hall. rewrite (Hall fs1 eq_refl), firstn_all in Hcopy.
  destruct (patch_manifest ext name target fs1) as [[[[]|e|code] fs2] ev2] eqn:Hpatch;
    try discriminate Hscaffold.
  apply patch_manifest_events in Hpatch.
  destruct (choose_packageManager_run ext inv fs2)
    as [manager [fs3 [probes [Hchoose [Hprobes Hflags]]]]].
  rewrite Hchoose in Hscaffold.
  destruct (execa ext (manager_name manager) ["install"] target fs3)
    as [[[[]|e|code] fs4] ev4] eqn:Hinstall; try discriminate Hscaffold.
  apply execa_events in Hinstall.
  destruct (initialize_git ext inv target fs4) as [[[[]|e|code] fs5] ev5] eqn:Hgit;
    try discriminate Hscaffold.
  apply initialize_git_events in Hgit.
  injection Hscaffold as _ <-.
  exists manager, probes. split; [|auto].
  subst ev1 ev2 ev4 ev5. cbn [app]. rewrite <- ?app_assoc. reflexivity.
Qed.

(** A run with a name ends with exit code 0 only through a [scaffold] that
    succeeds. *)
Lemma exit_0_scaffold (ext : externals) (inv : invocation) (fs : filesystem)
    (name : string) :
  project_name ext inv = Some name ->
  fst (fst (execute ext inv fs)) = ExitCode 0 ->
  exists fs' events,
    scaffold ext inv name (Path.join [cwd inv; name]) fs = (Ok tt, fs', events)
    /\ snd (execute ext inv fs) = (opening inv ++ ConsoleLog "" :: events)%list.
Proof.
  intros Hname Hexit. rewrite execute_run, main_run, Hname, create_run in Hexit |- *.
  destruct (negb (isValidProjectName ext name)); [discriminate Hexit|].
  destruct (JsString.array_includes reservedPackageNames name); [discriminate Hexit|].
  destruct (bool_decide (is_Some (fs !! Path.join [cwd inv; name])));
    [discriminate Hexit|].
  pose proof (plain_scaffold ext inv name (Path.join [cwd inv; name]) fs) as Hplain.
  destruct (scaffold ext inv name (Path.join [cwd inv; name]) fs)
    as [[[[]|[m|m]|code] fs'] events];
    cbn in Hplain; try contradiction; try discriminate Hexit.
  exists fs', events. split; reflexivity.
Qed.

(** ** The prompt and the name checks *)

(** X1 (the prompt's [validate] and the name checks agree).  The prompt
    accepts a value exactly when the two name checks of the script let it
    pass. *)
Theorem validate_agrees_with_checks (ext : externals) (value : string) (fs : filesystem) :
  validate ext value = Accepted <-> check_name ext value fs = (Ok tt, fs, []).
Proof.
  unfold validate, check_name. run_monad.
  destruct (negb (isValidProjectName ext value)).
  - split; intros H; discriminate H.
  - destruct (JsString.array_includes reservedPackageNames value).
    + split; intros H; discriminate H.
    + split; reflexivity.
Qed.

Lemma prompt_value_accepted (accept : string -> validation) (submitted : list string)
    (value : string) :
  prompt_value accept submitted = Some value -> accept value = Accepted.
Proof.
  induction submitted as [|v submitted IH]; [discriminate|].
  cbn [prompt_value]. destruct (accept v) as [|message] eqn:Hv.
  - intros [= <-]. exact Hv.
  - exact IH.
Qed.

Lemma prompted_project_name (ext : externals) (inv : invocation) :
  prompted inv = true ->
  project_name ext inv = prompt_value (validate ext) (typed inv).
Proof.
  unfold prompted, project_name.
  destruct (JsString.trim <$> project_directory inv) as [[|c rest]|];
    [reflexivity | discriminate | reflexivity].
Qed.

(** X2 (a prompted name fails no name check).  When the run has asked for
    the name, it can end with exit code 1 in one way only: the target
    directory of the name is there already.  The invalid-name and
    reserved-name errors cannot occur, nothing has been written, and the last
    line printed is the message of the existing target. *)
Theorem prompted_exit_1 (ext : externals) (inv : invocation) (fs : filesystem) :
  prompted inv = true ->
  fst (fst (execute ext inv fs)) = ExitCode 1 ->
  exists name,
    project_name ext inv = Some name
    /\ is_Some (fs !! Path.join [cwd inv; name])
    /\ execute ext inv fs
       = (ExitCode 1, fs,
          (opening inv ++ [ConsoleLog ""; ConsoleLog (target_exists_message name)])%list).
Proof.
  intros Hprompted Hexit.
  pose proof (prompted_project_name ext inv Hprompted) as Hname.
  rewrite execute_run, main_run in Hexit |- *.
  destruct (project_name ext inv) as [name|]; [|discriminate Hexit].
  symmetry in Hname. apply prompt_value_accepted in Hname.
  unfold validate in Hname. rewrite create_run in Hexit |- *.
  destruct (negb (isValidProjectName ext name)); [discriminate Hname|].
  destruct (JsString.array_includes reservedPackageNames name); [discriminate Hname|].
  destruct (bool_decide (is_Some (fs !! Path.join [cwd inv; name]))) eqn:Hthere.
  - exists name. split; [reflexivity|]. split; [exact (bool_decide_eq_true_1 _ Hthere)|].
    rewrite <- app_assoc. reflexivity.
  - pose proof (plain_scaffold ext inv name (Path.join [cwd inv; name]) fs) as Hplain.
    destruct (scaffold ext inv name (Path.join [cwd inv; name]) fs)
      as [[[[]|[m|m]|code] fs'] events];
      cbn in Hplain; try contradiction; discriminate Hexit.
Qed.

Lemma prompted_exit_1_witness :
  exists name,
    project_name Sample.ext Sample.prompted_my_app = Some name
    /\ is_Some (Sample.disk_taken !! Path.join ["/home/dev"; name])
    /\ execute Sample.ext Sample.prompted_my_app Sample.disk_taken
       = (ExitCode 1, Sample.disk_taken,
          (opening Sample.prompted_my_app
           ++ [ConsoleLog ""; ConsoleLog (target_exists_message name)])%list).
Proof.
  apply (prompted_exit_1 Sample.ext Sample.prompted_my_app Sample.disk_taken).
  - reflexivity.
  - vm_compute. reflexivity.
Defined.

Lemma no_prompt_none (events : list event) :
  Forall no_prompt events -> List.filter is_prompt events = [].
Proof.
  induction 1 as [|e events He _ IH]; [reflexivity|].
  cbn. rewrite He. exact IH.
Qed.

Lemma scaffold_no_prompt (ext : externals) (inv : invocation) (name target : string) :
  emits no_prompt (scaffold ext inv name target).
Proof.
  unfold scaffold, copy_template, patch_manifest, choose_packageManager, initialize_git.
  repeat first
    [ apply emits_ret
    | apply emits_cpy; [reflexivity | intros; reflexivity]
    | apply emits_readJson
    | apply emits_set_property
    | apply emits_writeFile; reflexivity
    | apply emits_execa; reflexivity
    | apply emits_detectPackageManager; reflexivity
    | apply emits_log; reflexivity
    | apply emits_bind; [|intros ?]
    | match goal with |- emits _ (if ?b then _ else _) => destruct b end ].
Qed.

(** X3 (the prompt is shown exactly when no name is given).  A run asks for
    the name once when the argument is missing or blank, and never
    otherwise, however it goes on and ends. *)
Theorem prompt_exactly_when_unnamed (ext : externals) (inv : invocation) (fs : filesystem) :
  List.filter is_prompt (snd (execute ext inv fs))
  = (if prompted inv then [Prompt "What is the name of your project?" "my-se2-app"]
     else [])
  /\ (prompted inv = true <->
      project_directory inv = None
      \/ exists raw, project_directory inv = Some raw /\ JsString.trim raw = "").
Proof.
  split.
  - assert (Hopening : List.filter is_prompt (opening inv)
                       = if prompted inv
                         then [Prompt "What is the name of your project?" "my-se2-app"]
                         else []).
    { unfold opening. destruct (prompted inv); reflexivity. }
    rewrite execute_run, main_run.
    destruct (project_name ext inv) as [name|].
    2:{ cbn [snd]. rewrite List.filter_app, Hopening. apply app_nil_r. }
    rewrite create_run.
    destruct (negb (isValidProjectName ext name)).
    { cbn [snd]. rewrite !List.filter_app, Hopening. cbn [List.filter is_prompt].
      rewrite !app_nil_r. reflexivity. }
    destruct (JsString.array_includes reservedPackageNames name).
    { cbn [snd]. rewrite !List.filter_app, Hopening. cbn [List.filter is_prompt].
      rewrite !app_nil_r. reflexivity. }
    destruct (bool_decide (is_Some (fs !! Path.join [cwd inv; name]))).
    { cbn [snd]. rewrite !List.filter_app, Hopening. cbn [List.filter is_prompt].
      rewrite !app_nil_r. reflexivity. }
    pose proof (scaffold_no_prompt ext inv name (Path.join [cwd inv; name]) fs) as Hquiet.
    apply no_prompt_none in Hquiet.
    destruct (scaffold ext inv name (Path.join [cwd inv; name]) fs)
      as [[[[]|[m|m]|code] fs'] events]; cbn [snd] in *;
      rewrite ?List.filter_app, Hopening; cbn [List.filter is_prompt];
      rewrite Hquiet; rewrite ?app_nil_r; reflexivity.
  - unfold prompted. destruct (project_directory inv) as [raw|]; cbn.
    + destruct (JsString.trim raw) eqn:Htrim.
      * split; [intros _; right; exists raw; auto | reflexivity].
      * split; [discriminate|].
        intros [H|[raw' [[= <-] H]]]; [discriminate H | congruence].
    + split; [auto | reflexivity].
Qed.

(** ** How a run ends *)

(** X4 (exit status).  A run ends with exit code 0, with exit code 1, or
    with an [Error] that nothing caught: no other exit code, and no
    [FriendlyError] leaves [run].  It ends with exit code 1 exactly when it
    has a name and that name is invalid, or reserved, or the path of
    something that is there already. *)
Theorem exit_status (ext : externals) (inv : invocation) (fs : filesystem) :
  match fst (fst (execute ext inv fs)) with
  | ExitCode 0 | ExitCode 1 | Uncaught (Error _) => True
  | _ => False
  end
  /\ (fst (fst (execute ext inv fs)) = ExitCode 1 <->
      exists name,
        project_name ext inv = Some name
        /\ (isValidProjectName ext name = false
            \/ In name reservedPackageNames
            \/ is_Some (fs !! Path.join [cwd inv; name]))).
Proof.
  rewrite execute_run, main_run.
  destruct (project_name ext inv) as [name|].
  2:{ cbn [fst snd]. split; [exact I|]. split; [discriminate|].
      intros [name [H _]]. discriminate H. }
  rewrite create_run.
  destruct (isValidProjectName ext name) eqn:Hvalid; cbn [negb].
  2:{ cbn [fst snd]. split; [exact I|]. split; [|reflexivity]. intros _. exists name. auto. }
  destruct (JsString.array_includes reservedPackageNames name) eqn:Hreserved.
  { cbn [fst snd]. split; [exact I|]. split; [|reflexivity]. intros _. exists name.
    apply array_includes_In in Hreserved. auto. }
  destruct (bool_decide (is_Some (fs !! Path.join [cwd inv; name]))) eqn:Hthere.
  { cbn [fst snd]. split; [exact I|]. split; [|reflexivity]. intros _. exists name.
    apply bool_decide_eq_true_1 in Hthere. auto. }
  pose proof (plain_scaffold ext inv name (Path.join [cwd inv; name]) fs) as Hplain.
  destruct (scaffold ext inv name (Path.join [cwd inv; name]) fs)
    as [[[a|[message|message]|code] fs1] ev1]; cbn in Hplain; try contradiction;
    cbn [fst snd]; (split; [exact I|]); (split; [discriminate|]);
    intros [name' [[= <-] [H|[H|H]]]];
    [ congruence
    | apply array_includes_In in H; congruence
    | apply bool_decide_eq_false_1 in Hthere; contradiction
    | congruence
    | apply array_includes_In in H; congruence
    | apply bool_decide_eq_false_1 in Hthere; contradiction ].
Qed.

(** X5 (the trace of a run that succeeds).  A run with a name that ends
    with exit code 0 has done, in this order and nothing else: the opening;
    the line that announces the target; the [cpy] call and one copy for each
    template file that is not junk and that the filter keeps; the write of the manifest; at most the
    two probes, pnpm's before yarn's, and none when a flag is set; the line
    that announces the install and the install, by one and the same manager,
    in the target directory; the git step, unless it is skipped; and the
    closing lines, whose hint names that manager, with [run] for npm only. *)
Theorem successful_run (ext : externals) (inv : invocation) (fs : filesystem)
    (name : string) :
  project_name ext inv = Some name ->
  fst (fst (execute ext inv fs)) = ExitCode 0 ->
  exists manager probes,
    snd (execute ext inv fs)
    = (opening inv
       ++ [ConsoleLog "";
           ConsoleLog (creating_line (Path.join [cwd inv; name]));
           Cpy (template_pattern inv) (Path.join [cwd inv; name])]
       ++ List.map copy_event (template_jobs ext inv (Path.join [cwd inv; name]) fs)
       ++ [WriteFile (Path.join [Path.join [cwd inv; name]; "package.json"])]
       ++ probes
       ++ [ConsoleLog (installing_line manager);
           Execa (manager_name manager) ["install"] (Path.join [cwd inv; name])]
       ++ git_events inv (Path.join [cwd inv; name])
       ++ [ConsoleLog done_line; ConsoleLog "";
           ConsoleLog (get_started_line name manager); ConsoleLog ""])%list
    /\ (probes = [] \/ probes = [ExecSync "pnpm --version"]
        \/ probes = [ExecSync "pnpm --version"; ExecSync "yarn --version"])
    /\ (usePnpm (opts inv) || useYarn (opts inv) || useNpm (opts inv) = true ->
        probes = []
        /\ manager = (if usePnpm (opts inv) then pnpm
                      else if useYarn (opts inv) then yarn else npm)).
Proof.
  intros Hname Hexit.
  destruct (exit_0_scaffold ext inv fs name Hname Hexit) as [fs' [events [Hscaffold ->]]].
  destruct (scaffold_ok_events _ _ _ _ _ _ _ Hscaffold)
    as [manager [probes [-> [Hprobes Hflags]]]].
  exists manager, probes. split; [reflexivity | auto].
Qed.

Lemma successful_run_witness :
  exists manager probes,
    snd (execute Sample.ext Sample.my_app Sample.disk)
    = (opening Sample.my_app
       ++ [ConsoleLog "";
           ConsoleLog (creating_line "/home/dev/my-app");
           Cpy (template_pattern Sample.my_app) "/home/dev/my-app"]
       ++ List.map copy_event
            (template_jobs Sample.ext Sample.my_app "/home/dev/my-app" Sample.disk)
       ++ [WriteFile "/home/dev/my-app/package.json"]
       ++ probes
       ++ [ConsoleLog (installing_line manager);
           Execa (manager_name manager) ["install"] "/home/dev/my-app"]
       ++ git_events Sample.my_app "/home/dev/my-app"
       ++ [ConsoleLog done_line; ConsoleLog "";
           ConsoleLog (get_started_line "my-app" manager); ConsoleLog ""])%list.
Proof.
  assert (Hexit : fst (fst (execute Sample.ext Sample.my_app Sample.disk)) = ExitCode 0)
    by (vm_compute; reflexivity).
  destruct (successful_run Sample.ext Sample.my_app Sample.disk "my-app" eq_refl Hexit)
    as [manager [probes [Htrace _]]].
  exists manager, probes. exact Htrace.
Defined.

Lemma creating_not_done (targetPath : string) : creating_line targetPath <> done_line.
Proof.
  unfold creating_line, done_line. intros H.
  apply (f_equal (String.get 2)) in H. discriminate H.
Qed.

Lemma installing_not_done (manager : packageManager) : installing_line manager <> done_line.
Proof.
  unfold installing_line, done_line. intros H.
  apply (f_equal (String.get 2)) in H. discriminate H.
Qed.

Ltac not_done_steps :=
  repeat first
    [ apply emits_ret
    | apply emits_cpy; [discriminate | intros; discriminate]
    | apply emits_readJson
    | apply emits_set_property
    | apply emits_writeFile; discriminate
    | apply emits_execa; discriminate
    | apply emits_detectPackageManager; discriminate
    | apply emits_log; discriminate
    | apply emits_bind; [|intros ?]
    | match goal with |- emits _ (if ?b then _ else _) => destruct b end ].

Lemma not_done_copy_template (ext : externals) (inv : invocation) (targetPath : string) :
  emits not_done (copy_template ext inv targetPath).
Proof. unfold copy_template. not_done_steps. Qed.

Lemma not_done_patch_manifest (ext : externals) (projectPath targetPath : string) :
  emits not_done (patch_manifest ext projectPath targetPath).
Proof. unfold patch_manifest. not_done_steps. Qed.

Lemma not_done_choose (ext : externals) (inv : invocation) :
  emits not_done (choose_packageManager ext inv).
Proof. unfold choose_packageManager. not_done_steps. Qed.

Lemma not_done_initialize_git (ext : externals) (inv : invocation) (targetPath : string) :
  emits not_done (initialize_git ext inv targetPath).
Proof. unfold initialize_git. not_done_steps. Qed.

Lemma not_done_opening (inv : invocation) : Forall not_done (opening inv).
Proof. unfold opening. destruct (prompted inv); repeat constructor; discriminate. Qed.

Lemma message_not_done (name : string) :
  not_done (ConsoleLog invalid_name_message)
  /\ not_done (ConsoleLog (reserved_name_message name))
  /\ not_done (ConsoleLog (target_exists_message name)).
Proof.
  repeat split; intros [= H]; apply (f_equal (String.get 2)) in H; discriminate H.
Qed.

(** A [scaffold] that does not succeed has not printed the success message. *)
Lemma scaffold_not_done (ext : externals) (inv : invocation) (name target : string)
    (fs : filesystem) :
  (exists fs' events, scaffold ext inv name target fs = (Ok tt, fs', events))
  \/ Forall not_done (snd (scaffold ext inv name target fs)).
Proof.
  rewrite scaffold_run.
  pose proof (not_done_copy_template ext inv target fs) as H1.
  destruct (copy_template ext inv target fs) as [[[[]|e|code] fs1] ev1]; cbn [snd] in *;
    [| right; constructor; [intros [= H]; exact (creating_not_done _ H) | exact H1]..].
  pose proof (not_done_patch_manifest ext name target fs1) as H2.
  destruct (patch_manifest ext name target fs1) as [[[[]|e|code] fs2] ev2]; cbn [snd] in *;
    [| right; constructor; [intros [= H]; exact (creating_not_done _ H)|];
       repeat (apply Forall_app; split); assumption..].
  pose proof (not_done_choose ext inv fs2) as H3.
  destruct (choose_packageManager ext inv fs2) as [[[manager|e|code] fs3] ev3];
    cbn [snd] in *;
    [| right; constructor; [intros [= H]; exact (creating_not_done _ H)|];
       repeat (apply Forall_app; split); assumption..].
  pose proof (emits_execa not_done ext (manager_name manager) ["install"] target
                ltac:(discriminate) fs3) as H4.
  destruct (execa ext (manager_name manager) ["install"] target fs3)
    as [[[[]|e|code] fs4] ev4]; cbn [snd] in *;
    [| right; constructor; [intros [= H]; exact (creating_not_done _ H)|];
       repeat (apply Forall_app; split); try assumption;
       constructor; [intros [= H]; exact (installing_not_done _ H) | assumption]..].
  pose proof (not_done_initialize_git ext inv target fs4) as H5.
  destruct (initialize_git ext inv target fs4) as [[[[]|e|code] fs5] ev5]; cbn [snd] in *;
    [left; eauto
    | right; constructor; [intros [= H]; exact (creating_not_done _ H)|];
      repeat (apply Forall_app; split); try assumption;
      constructor; [intros [= H]; exact (installing_not_done _ H)|];
      apply Forall_app; split; assumption..].
Qed.

Ltac all_not_done :=
  repeat first
    [ apply not_done_opening | assumption | apply Forall_app; split
    | apply Forall_cons_2 | apply Forall_nil_2 | discriminate ].

(** X6 (the success message means success).  The line that thanks the user
    is printed exactly by the runs that have a name and end with exit code 0:
    a run that fails a check, or in which a step throws, never prints it. *)
Theorem done_means_success (ext : externals) (inv : invocation) (fs : filesystem) :
  In (ConsoleLog done_line) (snd (execute ext inv fs))
  <-> fst (fst (execute ext inv fs)) = ExitCode 0
      /\ exists name, project_name ext inv = Some name.
Proof.
  split.
  - intros Hdone.
    assert (Hno : forall events, Forall not_done events ->
                  In (ConsoleLog done_line) events -> False).
    { intros events Hall Hin. rewrite List.Forall_forall in Hall.
      exact (Hall _ Hin eq_refl). }
    rewrite execute_run, main_run in Hdone |- *.
    destruct (project_name ext inv) as [name|].
    2:{ exfalso. revert Hdone. apply Hno. cbn [snd]. all_not_done. }
    destruct (message_not_done name) as [Hinvalid [Hreserved Hexists]].
    rewrite create_run in Hdone |- *.
    destruct (negb (isValidProjectName ext name)).
    { exfalso. revert Hdone. apply Hno. cbn [snd]. all_not_done. }
    destruct (JsString.array_includes reservedPackageNames name).
    { exfalso. revert Hdone. apply Hno. cbn [snd]. all_not_done. }
    destruct (bool_decide (is_Some (fs !! Path.join [cwd inv; name]))).
    { exfalso. revert Hdone. apply Hno. cbn [snd]. all_not_done. }
    destruct (scaffold_not_done ext inv name (Path.join [cwd inv; name]) fs)
      as [[fs' [events ->]]|Hall].
    { split; [reflexivity | eauto]. }
    pose proof (plain_scaffold ext inv name (Path.join [cwd inv; name]) fs) as Hplain.
    destruct (scaffold ext inv name (Path.join [cwd inv; name]) fs)
      as [[[[]|[m|m]|code] fs'] events];
      cbn in Hplain; try contradiction; [split; [reflexivity | eauto]|].
    exfalso. revert Hdone. apply Hno. cbn [snd] in *. all_not_done.
  - intros [Hexit [name Hname]].
    destruct (exit_0_scaffold ext inv fs name Hname Hexit) as [fs' [events [Hscaffold ->]]].
    destruct (scaffold_ok_events _ _ _ _ _ _ _ Hscaffold) as [manager [probes [-> _]]].
    apply in_or_app. right. right.
    repeat (apply in_or_app; right). left. reflexivity.
Qed.

(** ** A failing install *)

Lemma scaffold_install_fails (ext : externals) (inv : invocation) (name target : string)
    (fs : filesystem) :
  (forall file dir fs', fst (child_process ext file ["install"] dir fs') = false) ->
  exists e fs' events,
    scaffold ext inv name target fs = (Throw e, fs', events)
    /\ git_commands events = [].
Proof.
  intros Hfails. rewrite scaffold_run.
  pose proof (no_git_copy_template ext inv target fs) as H1.
  destruct (copy_template ext inv target fs) as [[[[]|e|code] fs1] ev1] eqn:Hcopy;
    cbn [snd] in H1.
  2:{ eexists _, _, _. split; [reflexivity|].
      apply (git_commands_none (_ :: _)). constructor; [reflexivity | exact H1]. }
  2:{ pose proof (plain_cpy ext (cwd inv) (Path.join [selectedTemplatePath inv; "**"; "*"])
                    target (copy_filter inv) rename fs) as Hplain.
      unfold copy_template in Hcopy. rewrite Hcopy in Hplain. destruct Hplain. }
  pose proof (no_git_patch_manifest ext name target fs1) as H2.
  pose proof (plain_patch_manifest ext name target fs1) as Hplain2.
  destruct (patch_manifest ext name target fs1) as [[[[]|e|code] fs2] ev2];
    cbn [fst snd] in H2, Hplain2; [| |destruct Hplain2].
  2:{ eexists _, _, _. split; [reflexivity|].
      apply (git_commands_none (_ :: _)). constructor; [reflexivity|].
      apply Forall_app. split; assumption. }
  pose proof (no_git_choose ext inv fs2) as H3.
  destruct (choose_packageManager_run ext inv fs2)
    as [manager [fs3 [probes [Hchoose _]]]].
  rewrite Hchoose in H3 |- *. cbn [snd] in H3.
  unfold execa. specialize (Hfails (manager_name manager) target fs3).
  destruct (child_process ext (manager_name manager) ["install"] target fs3)
    as [ok fs4]. cbn [fst] in Hfails. subst ok.
  eexists _, _, _. split; [reflexivity|].
  apply (git_commands_none (_ :: _)). constructor; [reflexivity|].
  repeat (apply Forall_app; split); try assumption.
  constructor; [reflexivity|]. constructor; [|constructor].
  destruct manager; reflexivity.
Qed.

(** X7 (a failing install stops the run).  When the install command cannot
    succeed, whatever the manager chosen, a run with a name never ends with
    exit code 0: a failed check ends it with exit code 1 and anything else
    with an uncaught [Error].  No git command is run and the success message
    is not printed. *)
Theorem failed_install (ext : externals) (inv : invocation) (fs : filesystem)
    (name : string) :
  (forall file dir fs', fst (child_process ext file ["install"] dir fs') = false) ->
  project_name ext inv = Some name ->
  (fst (fst (execute ext inv fs)) = ExitCode 1
   \/ exists message, fst (fst (execute ext inv fs)) = Uncaught (Error message))
  /\ git_commands (snd (execute ext inv fs)) = []
  /\ Forall not_done (snd (execute ext inv fs)).
Proof.
  intros Hfails Hname.
  destruct (message_not_done name) as [Hinvalid [Hreserved Hexists]].
  rewrite execute_run, main_run, Hname, create_run.
  destruct (negb (isValidProjectName ext name)).
  { cbn [fst snd]. split; [auto|]. split; [|all_not_done].
    rewrite !git_commands_app, opening_no_git. reflexivity. }
  destruct (JsString.array_includes reservedPackageNames name).
  { cbn [fst snd]. split; [auto|]. split; [|all_not_done].
    rewrite !git_commands_app, opening_no_git. reflexivity. }
  destruct (bool_decide (is_Some (fs !! Path.join [cwd inv; name]))).
  { cbn [fst snd]. split; [auto|]. split; [|all_not_done].
    rewrite !git_commands_app, opening_no_git. reflexivity. }
  destruct (scaffold_install_fails ext inv name (Path.join [cwd inv; name]) fs Hfails)
    as [e [fs' [events [Hscaffold Hgit]]]].
  pose proof (plain_scaffold ext inv name (Path.join [cwd inv; name]) fs) as Hplain.
  destruct (scaffold_not_done ext inv name (Path.join [cwd inv; name]) fs)
    as [[fs'' [events'' Hok]]|Hall]; [rewrite Hok in Hscaffold; discriminate Hscaffold|].
  rewrite Hscaffold in Hplain, Hall |- *. cbn [fst snd] in *.
  destruct e as [message|message]; [destruct Hplain|].
  cbn [fst snd]. split; [eauto|]. split; [|all_not_done].
  rewrite git_commands_app, opening_no_git.
  exact (Hgit : git_commands (ConsoleLog "" :: events) = []).
Qed.

Lemma failed_install_witness :
  (fst (fst (execute Sample.ext_install_fails Sample.my_app Sample.disk)) = ExitCode 1
   \/ exists message,
        fst (fst (execute Sample.ext_install_fails Sample.my_app Sample.disk))
        = Uncaught (Error message))
  /\ git_commands (snd (execute Sample.ext_install_fails Sample.my_app Sample.disk)) = []
  /\ Forall not_done (snd (execute Sample.ext_install_fails Sample.my_app Sample.disk)).
Proof.
  apply (failed_install Sample.ext_install_fails Sample.my_app Sample.disk "my-app").
  - intros file dir fs'. reflexivity.
  - reflexivity.
Defined.

(** ** Where the effects go *)

Lemma scaffold_directed (ext : externals) (inv : invocation) (name target : string) :
  emits (directed target) (scaffold ext inv name target).
Proof.
  unfold scaffold, copy_template, patch_manifest, choose_packageManager, initialize_git.
  repeat first
    [ apply emits_ret
    | apply emits_cpy; [reflexivity | intros; exact I]
    | apply emits_readJson
    | apply emits_set_property
    | apply emits_writeFile; reflexivity
    | apply emits_execa; reflexivity
    | apply emits_detectPackageManager; exact I
    | apply emits_log; exact I
    | apply emits_bind; [|intros ?]
    | match goal with |- emits _ (if ?b then _ else _) => destruct b end ].
Qed.

Ltac all_directed :=
  repeat first
    [ assumption | exact I | apply Forall_app; split | apply Forall_cons_2
    | apply Forall_nil_2 ].

(** X8 (every effect is aimed at the target).  In a run with a name, the
    copy has the target directory for its destination, the one file written
    with [writeFile] is [package.json] in the target directory, and every
    child process started with [execa] runs in the target directory. *)
Theorem effects_in_target (ext : externals) (inv : invocation) (fs : filesystem)
    (name : string) :
  project_name ext inv = Some name ->
  Forall (directed (Path.join [cwd inv; name])) (snd (execute ext inv fs)).
Proof.
  intros Hname.
  assert (Hopening : Forall (directed (Path.join [cwd inv; name])) (opening inv)).
  { eapply Forall_impl; [apply opening_interaction|]. intros [] H; try exact I; destruct H. }
  rewrite execute_run, main_run, Hname, create_run.
  destruct (negb (isValidProjectName ext name)); [cbn [snd]; all_directed|].
  destruct (JsString.array_includes reservedPackageNames name); [cbn [snd]; all_directed|].
  destruct (bool_decide (is_Some (fs !! Path.join [cwd inv; name])));
    [cbn [snd]; all_directed|].
  pose proof (scaffold_directed ext inv name (Path.join [cwd inv; name]) fs) as Hscaffold.
  destruct (scaffold ext inv name (Path.join [cwd inv; name]) fs)
    as [[[[]|[m|m]|code] fs'] events]; cbn [snd] in *; all_directed.
Qed.

Lemma effects_in_target_witness :
  Forall (directed "/home/dev/my-app")
    (snd (execute Sample.ext Sample.my_app Sample.disk)).
Proof.
  exact (effects_in_target Sample.ext Sample.my_app Sample.disk "my-app" eq_refl).
Defined.

(** ** The manifest step, when it goes wrong *)

(** X9 (the manifest step writes last).  When the manifest step throws, it
    throws an [Error], it has written nothing and the filesystem is as it
    was.  It throws when [package.json] is missing from the target or is a
    directory, when its text does not parse, and when it parses to [null], a
    boolean, a number or a string. *)
Theorem manifest_all_or_nothing (ext : externals) (projectPath targetPath : string)
    (fs : filesystem) :
  (forall e fs' events,
     patch_manifest ext projectPath targetPath fs = (Throw e, fs', events) ->
     fs' = fs /\ events = [] /\ exists message, e = Error message)
  /\ ((fs !! Path.join [targetPath; "package.json"] = None
       \/ fs !! Path.join [targetPath; "package.json"] = Some Dir
       \/ (exists text,
             fs !! Path.join [targetPath; "package.json"] = Some (File text)
             /\ (JSON_parse ext text = None
                 \/ JSON_parse ext text = Some JNull
                 \/ (exists b, JSON_parse ext text = Some (JBool b))
                 \/ (exists r, JSON_parse ext text = Some (JNumber r))
                 \/ (exists s, JSON_parse ext text = Some (JString s))))) ->
      exists message,
        patch_manifest ext projectPath targetPath fs = (Throw (Error message), fs, [])).
Proof.
  rewrite patch_manifest_run. split.
  - intros e fs' events.
    destruct (fs !! Path.join [targetPath; "package.json"]) as [[text|]|];
      [destruct (JSON_parse ext text) as [[]|]| |];
      intros H; try discriminate H; injection H as <- <- <-; eauto.
  - intros [->|[->|[text [-> Hparse]]]]; eauto.
    destruct Hparse as [->|[->|[[b ->]|[[r ->]|[s ->]]]]]; eauto.
Qed.

Lemma manifest_all_or_nothing_witness :
  exists message,
    patch_manifest Sample.ext "my-app" "/home/dev/my-app" Sample.disk
    = (Throw (Error message), Sample.disk, []).
Proof.
  apply (proj2 (manifest_all_or_nothing Sample.ext "my-app" "/home/dev/my-app" Sample.disk)).
  left. vm_compute. reflexivity.
Defined.

(** X10 (a manifest that is an array).  When [package.json] parses to an
    array, the manifest step succeeds and writes the array back, printed with
    two spaces, as it was: the [name] and [version] the script assigns are
    properties beside the items, and are not printed. *)
Theorem array_manifest (ext : externals) (projectPath targetPath : string)
    (fs : filesystem) (text : string) (items : list json) :
  fs !! Path.join [targetPath; "package.json"] = Some (File text) ->
  JSON_parse ext text = Some (JArray items) ->
  patch_manifest ext projectPath targetPath fs
  = (Ok tt,
     <[Path.join [targetPath; "package.json"] := File (Json.stringify (JArray items) 2)]> fs,
     [WriteFile (Path.join [targetPath; "package.json"])]).
Proof.
  intros Hfile Hparse. rewrite patch_manifest_run, Hfile, Hparse. reflexivity.
Qed.

Lemma array_manifest_witness :
  patch_manifest Sample.ext_array "my-app" "/home/dev/my-app" Sample.disk_array
  = (Ok tt,
     <[Path.join ["/home/dev/my-app"; "package.json"]
       := File (Json.stringify (JArray []) 2)]> Sample.disk_array,
     [WriteFile (Path.join ["/home/dev/my-app"; "package.json"])]).
Proof.
  apply (array_manifest Sample.ext_array "my-app" "/home/dev/my-app" Sample.disk_array "[]").
  - vm_compute. reflexivity.
  - reflexivity.
Defined.

(** ** The rename and the filter *)

Lemma rename_dot (name : string) :
  JsString.startsWith name "." = true -> rename name = name.
Proof.
  intros H. apply startsWith_split in H.
  set (rest := JsString.drop _ _) in H. clearbody rest. subst name. reflexivity.
Qed.

(** X11 (the rename is idempotent).  Renaming a renamed base name changes
    nothing: the dot that replaces the marker is not followed by a second
    rewrite, even when the rest of the name starts with the marker. *)
Theorem rename_idempotent (name : string) : rename (rename name) = rename name.
Proof.
  destruct (JsString.startsWith name "_dot_") eqn:Hmarker.
  - apply rename_dot. unfold rename. rewrite Hmarker.
    apply (startsWith_app "." (JsString.drop 5 name)).
  - unfold rename. rewrite !Hmarker. reflexivity.
Qed.

(** X12 (the rename does not merge names).  Two base names that do not
    start with a dot and are renamed to the same name are the same name: the
    rename makes no two such template files of a directory land on one
    destination.  (A name that starts with a dot can collide: [.env] and
    [_dot_env] both give [.env].) *)
Theorem rename_injective (a b : string) :
  JsString.startsWith a "." = false ->
  JsString.startsWith b "." = false ->
  rename a = rename b -> a = b.
Proof.
  intros Ha Hb. unfold rename.
  destruct (JsString.startsWith a "_dot_") eqn:Hma,
           (JsString.startsWith b "_dot_") eqn:Hmb.
  - apply startsWith_split in Hma, Hmb.
    intros H. change (String "." (JsString.drop 5 a) = String "." (JsString.drop 5 b)) in H.
    assert (Hrest : JsString.drop 5 a = JsString.drop 5 b)
      by (injection H as H; exact H).
    transitivity ("_dot_" ++ JsString.drop 5 a); [exact Hma|].
    rewrite Hrest. symmetry. exact Hmb.
  - intros <-. rewrite (startsWith_app "." (JsString.drop 5 a)) in Hb. discriminate Hb.
  - intros ->. rewrite (startsWith_app "." (JsString.drop 5 b)) in Ha. discriminate Ha.
  - auto.
Qed.

Lemma rename_injective_witness :
  "_dot_gitignore" = "_dot_gitignore" /\ rename ".env" = rename "_dot_env".
Proof.
  split.
  - exact (rename_injective "_dot_gitignore" "_dot_gitignore" eq_refl eq_refl eq_refl).
  - reflexivity.
Defined.

(** X13 (everything below an excluded directory is excluded).  A matched
    file whose path relative to the template root passes through a directory
    whose path contains one of the fragments is not copied, whatever the rest
    of its path is. *)
Theorem excluded_directory (inv : invocation) (path dir rest fragment : string) :
  Path.relative (cwd inv) (selectedTemplatePath inv) path = dir ++ "/" ++ rest ->
  In fragment ignoreList ->
  JsString.includes dir fragment = true ->
  copy_filter inv path = false.
Proof.
  intros Hrel Hin Hdir. unfold copy_filter.
  apply not_true_is_false. intros Hall.
  rewrite forallb_forall in Hall. specialize (Hall fragment Hin).
  cbv zeta in Hall. rewrite Hrel in Hall.
  apply includes_substring in Hdir. destruct Hdir as [pre [post ->]].
  assert (Hincl : JsString.includes ((pre ++ fragment ++ post) ++ "/" ++ rest) fragment
                  = true).
  { apply includes_substring. exists pre, (post ++ "/" ++ rest).
    rewrite !string_append_assoc. reflexivity. }
  rewrite Hincl in Hall. discriminate Hall.
Qed.

Lemma excluded_directory_witness :
  copy_filter Sample.my_app "/opt/create-se2/templates/nextjs/node_modules/next/index.js"
  = false.
Proof.
  apply (excluded_directory Sample.my_app
           "/opt/create-se2/templates/nextjs/node_modules/next/index.js"
           "node_modules" "next/index.js" "node_modules").
  - reflexivity.
  - left. reflexivity.
  - reflexivity.
Defined.
